(** * Alert_Hub backend ([backend/app.py]): a shallow embedding

    The Flask handlers of [backend/app.py] are embedded as functions in a
    small state-and-exception monad.  The state is the observable world of a
    request: the outbound GET requests sent so far and the lines printed on
    standard output.  The answer of the upstream servers is a parameter of the
    development (an arbitrary function from the request sent to either a
    response or an exception of the [requests] library).

    Python floats are IEEE 754 binary64 numbers and are embedded as Rocq's
    primitive floats, whose comparison is the IEEE one. *)

From Stdlib Require Import ZArith Bool List String Ascii Floats Lia.
Import ListNotations.

Set Warnings "-inexact-float,-register-all".

Local Open Scope string_scope.
Local Open Scope Z_scope.

(** ** Exceptions and results *)

(** The subclasses of Python's [Exception] that the modelled code can meet.
    The first five are raised by [requests.get] and [raise_for_status]. *)
Inductive exn : Type :=
| ConnectionError
| Timeout
| TooManyRedirects
| ChunkedEncodingError
| HTTPError
| JSONDecodeError
| AttributeError
| TypeError
| ValueError.

Inductive result (A : Type) : Type :=
| Ok (a : A)
| Raise (e : exn).
Arguments Ok {A} a.
Arguments Raise {A} e.

(** ** Python objects *)

(** The objects the handlers build and read: what [json] decodes to, and
    what [jsonify] encodes.  A dict keeps its insertion order; its keys are
    unique, so that looking up the first binding of a key is [dict.get]. *)
Inductive pyobj : Type :=
| PyNone
| PyBool (b : bool)
| PyInt (z : Z)
| PyFloat (f : float)
| PyStr (s : string)
| PyList (l : list pyobj)
| PyDict (d : list (string * pyobj)).

Fixpoint lookup {V} (k : string) (d : list (string * V)) : option V :=
  match d with
  | [] => None
  | (k', v) :: d' => if String.eqb k k' then Some v else lookup k d'
  end.

(** [d.get(k, default)] on a dict. *)
Definition dict_get {V} (d : list (string * V)) (k : string) (default : V) : V :=
  match lookup k d with
  | Some v => v
  | None => default
  end.

(** [d.get(k, default)] where the key is a string or [None]; [None] is the
    key of no entry of a dict keyed by strings. *)
Definition dict_get_opt {V} (d : list (string * V)) (k : option string)
    (default : V) : V :=
  match k with
  | Some s => dict_get d s default
  | None => default
  end.

(** [o[k]] read off an object, [None] where there is no such entry. *)
Definition field (k : string) (o : pyobj) : option pyobj :=
  match o with
  | PyDict d => lookup k d
  | _ => None
  end.

(** [o.get(k, default)] on any object: only a dict has the method. *)
Definition py_get (o : pyobj) (k : string) (default : pyobj) : result pyobj :=
  match o with
  | PyDict d => Ok (dict_get d k default)
  | _ => Raise AttributeError
  end.

(** [for x in o]: the items a [for] loop visits. *)
Definition py_iter (o : pyobj) : result (list pyobj) :=
  match o with
  | PyList l => Ok l
  | PyDict d => Ok (map (fun kv => PyStr (fst kv)) d)
  | PyStr s => Ok (map (fun c => PyStr (String c EmptyString)) (list_ascii_of_string s))
  | _ => Raise TypeError
  end.

Definition opt_str (o : option string) : pyobj :=
  match o with
  | Some s => PyStr s
  | None => PyNone
  end.

(** An optional string formatted in an f-string. *)
Definition format (o : option string) : string :=
  match o with
  | Some s => s
  | None => "None"
  end.

(** [not x] for an optional string: [None] and the empty string are falsy. *)
Definition py_not (o : option string) : bool :=
  match o with
  | None => true
  | Some s => String.eqb s ""
  end.

(** ** The world of one request *)

Definition str_dict := list (string * string).

(** The arguments of one call of [requests.get]. *)
Record GetRequest : Type := mkGet {
  get_url : string;
  get_params : option (list (string * pyobj));
  get_headers : option str_dict;
  get_timeout : Z
}.

Record World : Type := mkWorld {
  sent : list GetRequest;    (* outbound GET requests, oldest first *)
  stdout : list string       (* lines written by print, oldest first *)
}.

(** A computation either returns or raises, and always leaves a world
    behind: what was sent or printed before an exception stays so. *)
Definition M (A : Type) : Type := World -> result A * World.

Class Monad (m : Type -> Type) : Type := {
  ret : forall {A}, A -> m A;
  bind : forall {A B}, m A -> (A -> m B) -> m B
}.

#[export] Instance Monad_result : Monad result := {
  ret := fun A a => Ok a;
  bind := fun A B c k => match c with Ok a => k a | Raise e => Raise e end
}.

#[export] Instance Monad_M : Monad M := {
  ret := fun A a w => (Ok a, w);
  bind := fun A B c k w =>
    match c w with
    | (Ok a, w') => k a w'
    | (Raise e, w') => (Raise e, w')
    end
}.

Declare Scope monad_scope.
Delimit Scope monad_scope with monad.
Notation "x <- c ;; k" := (bind c (fun x => k))
  (at level 61, c at next level, right associativity) : monad_scope.
Notation "c ;;; k" := (bind c (fun _ => k))
  (at level 61, right associativity) : monad_scope.
Local Open Scope monad_scope.

(** A pure computation that may raise, run inside a handler. *)
Definition lift {A} (r : result A) : M A := fun w => (r, w).

Definition raise {A} (e : exn) : M A := lift (Raise e).

(** [try: body / except Exception: handler]. *)
Definition try_except {A} (body : M A) (handler : exn -> M A) : M A :=
  fun w =>
    match body w with
    | (Ok a, w') => (Ok a, w')
    | (Raise e, w') => handler e w'
    end.

Definition try_except_pure {A} (body : result A) (handler : exn -> A) : A :=
  match body with
  | Ok a => a
  | Raise e => handler e
  end.

(** [print(line)]. *)
Definition print (line : string) : M unit :=
  fun w => (Ok tt, mkWorld (sent w) (stdout w ++ [line])).

(** ** HTTP: the [requests] library and Flask *)

(** A [requests.Response]: its status, its decoded text (one character per
    code point, code points below 256) and what its [json()] method does. *)
Record Response : Type := mkResponse {
  status_code : Z;
  text : string;
  json : result pyobj
}.

(** What a handler returns: [jsonify(body), status]. *)
Record FlaskResponse : Type := mkFlask {
  body : pyobj;
  status : Z
}.

Definition jsonify (o : pyobj) : pyobj := o.

(** [return jsonify(o)] has status 200. *)
Definition respond (o : pyobj) : FlaskResponse := mkFlask (jsonify o) 200.

(** [request.args]: the query parameters in order; [get] gives the first
    value of a key, or [None]. *)
Definition Request := list (string * string).

Definition args_get (req : Request) (k : string) : option string := lookup k req.

Definition DEFAULT_TIMEOUT : Z := 12.

(** [Response.raise_for_status()] of the [requests] library: it raises
    [HTTPError] for a status from 400 to 599 and returns otherwise. *)
Definition is_http_error (code : Z) : bool := (400 <=? code) && (code <? 600).

Definition raise_for_status (resp : Response) : result unit :=
  if is_http_error (status_code resp) then Raise HTTPError else Ok tt.

(** The truth value of a response is its [ok] property: [raise_for_status]
    does not raise. *)
Definition Response_bool (resp : Response) : bool :=
  negb (is_http_error (status_code resp)).

Definition truthy (r : option Response) : bool :=
  match r with
  | Some resp => Response_bool resp
  | None => false
  end.

(** [r.json()] where [r] is a response or [None]. *)
Definition resp_json (r : option Response) : result pyobj :=
  match r with
  | Some resp => json resp
  | None => Raise AttributeError
  end.

(** [r.text]. *)
Definition resp_text (r : option Response) : result string :=
  match r with
  | Some resp => Ok (text resp)
  | None => Raise AttributeError
  end.

Section Upstream.

(** The servers behind the network. *)
Variable upstream : GetRequest -> result Response.

(** [requests.get(url, params=, headers=, timeout=)]: one request is sent. *)
Definition requests_get (url : string) (params : option (list (string * pyobj)))
    (headers : option str_dict) (timeout : Z) : M Response :=
  fun w =>
    let rq := mkGet url params headers timeout in
    (upstream rq, mkWorld (sent w ++ [rq]) (stdout w)).

Definition safe_get (url : string) (params : option (list (string * pyobj)))
    (headers : option str_dict) : M (option Response) :=
  try_except
    (resp <- requests_get url params headers DEFAULT_TIMEOUT ;;
     lift (raise_for_status resp) ;;;
     ret (Some resp))
    (fun _ => ret None).

End Upstream.

(** ** String operations of Python used by the feed endpoint *)

(** [s.find(sub)]: the lowest index where [sub] starts, or -1. *)
Fixpoint find_from (sub s : string) (i : Z) : Z :=
  if prefix sub s then i
  else match s with
       | EmptyString => -1
       | String _ s' => find_from sub s' (i + 1)
       end.

Definition find (s sub : string) : Z := find_from sub s 0.

(** A slice bound clamped into [0, len], a negative one counted from the end. *)
Definition clamp (len i : Z) : Z :=
  if i <? 0 then Z.max (i + len) 0 else Z.min i len.

(** [s[a:b]]. *)
Definition slice (s : string) (a b : Z) : string :=
  let len := Z.of_nat (String.length s) in
  let a' := clamp len a in
  let b' := clamp len b in
  substring (Z.to_nat a') (Z.to_nat (b' - a')) s.

(** [s.split(sep)] for a non-empty [sep]: [skip] counts the characters of a
    separator just matched that are still to be passed over, [cur] is the
    piece being read. *)
Fixpoint split_go (sep : string) (skip : nat) (cur s : string) : list string :=
  match s with
  | EmptyString => [cur]
  | String c s' =>
    match skip with
    | S k => split_go sep k cur s'
    | O =>
      if prefix sep s
      then cur :: split_go sep (Nat.pred (String.length sep)) "" s'
      else split_go sep 0 (cur ++ String c "") s'
    end
  end.

Definition split (s sep : string) : list string := split_go sep 0 "" s.

(** [str.isspace] on the code points below 256: tab to carriage return, the
    four separators 28 to 31, the space, NEL (133) and the no-break space
    (160). *)
Definition is_space (c : ascii) : bool :=
  let n := Z.of_nat (nat_of_ascii c) in
  ((9 <=? n) && (n <=? 13)) || ((28 <=? n) && (n <=? 32))
  || (n =? 133) || (n =? 160).

Fixpoint lstrip (s : string) : string :=
  match s with
  | EmptyString => EmptyString
  | String c s' => if is_space c then lstrip s' else s
  end.

Fixpoint rstrip (s : string) : string :=
  match s with
  | EmptyString => EmptyString
  | String c s' =>
    match rstrip s' with
    | EmptyString => if is_space c then EmptyString else String c EmptyString
    | r => String c r
    end
  end.

(** [s.strip()]. *)
Definition strip (s : string) : string := rstrip (lstrip s).

(** [l[1:]]. *)
Definition drop_first {A} (l : list A) : list A := tl l.

(** ** The handlers that call an upstream server *)

Definition missing_coordinates : FlaskResponse :=
  mkFlask (jsonify (PyDict [("error", PyStr "lat and lon are required")])) 400.

(** The body of the loop of [get_alerts]: one feature projected to the nine
    fields of an alert.  A [get] without default gives [None]. *)
Definition project_feature (f : pyobj) : result pyobj :=
  props <- py_get f "properties" (PyDict []) ;;
  id <- py_get f "id" PyNone ;;
  event <- py_get props "event" PyNone ;;
  headline <- py_get props "headline" PyNone ;;
  areaDesc <- py_get props "areaDesc" PyNone ;;
  severity <- py_get props "severity" PyNone ;;
  urgency <- py_get props "urgency" PyNone ;;
  effective <- py_get props "effective" PyNone ;;
  expires <- py_get props "expires" PyNone ;;
  instruction <- py_get props "instruction" PyNone ;;
  ret (PyDict [("id", id); ("event", event); ("headline", headline);
               ("areaDesc", areaDesc); ("severity", severity);
               ("urgency", urgency); ("effective", effective);
               ("expires", expires); ("instruction", instruction)]).

(** The [for] loop of [get_alerts]: [alerts] is the list appended to so far. *)
Fixpoint project_loop (alerts : list pyobj) (features : list pyobj)
    : result (list pyobj) :=
  match features with
  | [] => Ok alerts
  | f :: rest =>
    a <- project_feature f ;;
    project_loop (alerts ++ [a]) rest
  end.

(** The [try] block of [get_alerts]. *)
Definition parse_alerts (nws : option Response) : result (list pyobj) :=
  data <- resp_json nws ;;
  features <- py_get data "features" (PyList []) ;;
  items <- py_iter features ;;
  project_loop [] items.

(** One chunk of the feed, after an item tag. *)
Definition amber_item (chunk : string) : pyobj :=
  let title_start := find chunk "<title>" in
  let title_end := find chunk "</title>" in
  let link_start := find chunk "<link>" in
  let link_end := find chunk "</link>" in
  let desc_start := find chunk "<description>" in
  let desc_end := find chunk "</description>" in
  let title :=
    if negb (title_start =? -1) && negb (title_end =? -1)
    then strip (slice chunk (title_start + 7) title_end)
    else "AMBER Alert" in
  let link :=
    if negb (link_start =? -1) && negb (link_end =? -1)
    then strip (slice chunk (link_start + 6) link_end)
    else "" in
  let description :=
    if negb (desc_start =? -1) && negb (desc_end =? -1)
    then strip (slice chunk (desc_start + 13) desc_end)
    else "" in
  PyDict [("title", PyStr title); ("link", PyStr link);
          ("description", PyStr description)].

(** The extraction loop of [get_amber] over the text of the feed. *)
Definition amber_items (text : string) : list pyobj :=
  map amber_item (drop_first (split text "<item>")).

Section Handlers.

Variable upstream : GetRequest -> result Response.

Definition weather_fields : list string :=
  ["temperature_2m"; "precipitation"; "wind_speed_10m";
   "relative_humidity_2m"; "weather_code"].

Definition weather_params (lat lon : option string) : list (string * pyobj) :=
  [("latitude", opt_str lat); ("longitude", opt_str lon);
   ("current", PyStr (String.concat "," weather_fields))].

Definition weather_unavailable : FlaskResponse :=
  mkFlask (jsonify (PyDict [("current", PyNone); ("source", PyStr "open-meteo");
                            ("note", PyStr "unavailable")])) 502.

Definition get_weather (req : Request) : M FlaskResponse :=
  let lat := args_get req "lat" in
  let lon := args_get req "lon" in
  if py_not lat || py_not lon then ret missing_coordinates
  else
    let params := weather_params lat lon in
    resp <- safe_get upstream "https://api.open-meteo.com/v1/forecast"
              (Some params) None ;;
    if negb (truthy resp) then ret weather_unavailable
    else
      data <- lift (resp_json resp) ;;
      current <- lift (py_get data "current" (PyDict [])) ;;
      ret (respond (PyDict [("current", current);
                            ("source", PyStr "open-meteo")])).

Definition alerts_response (alerts : list pyobj) : FlaskResponse :=
  respond (PyDict [("alerts", PyList alerts); ("source", PyStr "NWS")]).

Definition get_alerts (req : Request) : M FlaskResponse :=
  let lat := args_get req "lat" in
  let lon := args_get req "lon" in
  if py_not lat || py_not lon then ret missing_coordinates
  else
    nws <- safe_get upstream "https://api.weather.gov/alerts/active"
             (Some [("point", PyStr (format lat ++ "," ++ format lon))])
             (Some [("Accept", "application/geo+json")]) ;;
    let alerts :=
      if truthy nws
      then try_except_pure (parse_alerts nws) (fun _ => [])
      else [] in
    ret (alerts_response alerts).

Definition amber_unavailable : FlaskResponse :=
  mkFlask (jsonify (PyDict [("items", PyList []); ("source", PyStr "NCMEC");
                            ("note", PyStr "unavailable")])) 502.

Definition get_amber : M FlaskResponse :=
  let rss_url := "https://www.missingkids.org/feeds/amber.xml" in
  resp <- safe_get upstream rss_url None None ;;
  if negb (truthy resp) then ret amber_unavailable
  else
    text <- lift (resp_text resp) ;;
    let items := amber_items text in
    ret (respond (PyDict [("items", PyList items); ("source", PyStr "NCMEC")])).

End Handlers.

(** ** The region classifier and the statistics of [get_crime] *)

Section Classifier.

Local Open Scope float_scope.

(** The chained comparison [a <= x <= b]. *)
Definition between (a x b : float) : bool := (a <=? x) && (x <=? b).

(** The [if]/[elif] chain of [get_crime], in the order of the source. *)
Definition state_chain (lat_f lon_f : float) : option string :=
  if between 24.5 lat_f 31.0 && between (-87.6) lon_f (-80.0) then Some "FL"
  else if between 30.0 lat_f 35.0 && between (-88.0) lon_f (-80.0) then Some "GA"
  else if between 32.0 lat_f 35.0 && between (-88.0) lon_f (-80.0) then Some "SC"
  else if between 33.0 lat_f 36.0 && between (-84.0) lon_f (-75.0) then Some "NC"
  else if between 36.0 lat_f 39.0 && between (-84.0) lon_f (-75.0) then Some "VA"
  else if between 38.0 lat_f 40.0 && between (-79.0) lon_f (-75.0) then Some "MD"
  else if between 39.0 lat_f 42.0 && between (-80.0) lon_f (-74.0) then Some "PA"
  else if between 40.0 lat_f 45.0 && between (-79.0) lon_f (-71.0) then Some "NY"
  else if between 41.0 lat_f 42.0 && between (-73.0) lon_f (-71.0) then Some "CT"
  else if between 41.0 lat_f 43.0 && between (-72.0) lon_f (-70.0) then Some "MA"
  else if between 43.0 lat_f 45.0 && between (-72.0) lon_f (-70.0) then Some "VT"
  else if between 43.0 lat_f 47.0 && between (-71.0) lon_f (-66.0) then Some "ME"
  else if between 40.0 lat_f 42.0 && between (-75.0) lon_f (-73.0) then Some "NJ"
  else if between 38.0 lat_f 40.0 && between (-75.0) lon_f (-73.0) then Some "DE"
  else if between 31.0 lat_f 37.0 && between (-114.0) lon_f (-109.0) then Some "AZ"
  else if between 31.0 lat_f 37.0 && between (-115.0) lon_f (-108.0) then Some "AZ"
  else if between 31.0 lat_f 37.0 && between (-109.0) lon_f (-103.0) then Some "NM"
  else if between 25.0 lat_f 36.0 && between (-106.0) lon_f (-93.0) then Some "TX"
  else if between 33.0 lat_f 37.0 && between (-94.0) lon_f (-89.0) then Some "AR"
  else if between 30.0 lat_f 35.0 && between (-94.0) lon_f (-88.0) then Some "LA"
  else if between 30.0 lat_f 35.0 && between (-91.0) lon_f (-88.0) then Some "MS"
  else if between 30.0 lat_f 35.0 && between (-88.0) lon_f (-84.0) then Some "AL"
  else if between 24.0 lat_f 31.0 && between (-87.0) lon_f (-80.0) then Some "FL"
  else if between 40.0 lat_f 42.0 && between (-84.0) lon_f (-80.0) then Some "OH"
  else if between 37.0 lat_f 40.0 && between (-85.0) lon_f (-81.0) then Some "WV"
  else if between 36.0 lat_f 39.0 && between (-85.0) lon_f (-81.0) then Some "KY"
  else if between 35.0 lat_f 37.0 && between (-90.0) lon_f (-81.0) then Some "TN"
  else if between 38.0 lat_f 40.0 && between (-88.0) lon_f (-84.0) then Some "IN"
  else if between 37.0 lat_f 42.0 && between (-91.0) lon_f (-87.0) then Some "IL"
  else if between 40.0 lat_f 43.0 && between (-96.0) lon_f (-90.0) then Some "IA"
  else if between 42.0 lat_f 47.0 && between (-97.0) lon_f (-89.0) then Some "WI"
  else if between 43.0 lat_f 49.0 && between (-97.0) lon_f (-89.0) then Some "MN"
  else if between 40.0 lat_f 43.0 && between (-104.0) lon_f (-95.0) then Some "NE"
  else if between 38.0 lat_f 40.0 && between (-102.0) lon_f (-94.0) then Some "KS"
  else if between 35.0 lat_f 37.0 && between (-103.0) lon_f (-94.0) then Some "OK"
  else if between 36.0 lat_f 42.0 && between (-120.0) lon_f (-114.0) then Some "NV"
  else if between 32.0 lat_f 42.0 && between (-124.0) lon_f (-114.0) then Some "CA"
  else if between 45.0 lat_f 49.0 && between (-125.0) lon_f (-116.0) then Some "WA"
  else if between 42.0 lat_f 46.0 && between (-125.0) lon_f (-116.0) then Some "OR"
  else if between 40.0 lat_f 45.0 && between (-111.0) lon_f (-104.0) then Some "CO"
  else if between 41.0 lat_f 45.0 && between (-112.0) lon_f (-104.0) then Some "UT"
  else if between 42.0 lat_f 49.0 && between (-117.0) lon_f (-104.0) then Some "MT"
  else if between 44.0 lat_f 49.0 && between (-117.0) lon_f (-104.0) then Some "ND"
  else if between 43.0 lat_f 46.0 && between (-104.0) lon_f (-96.0) then Some "SD"
  else if between 40.0 lat_f 43.0 && between (-104.0) lon_f (-95.0) then Some "WY"
  else if between 45.0 lat_f 49.0 && between (-125.0) lon_f (-66.0) then Some "AK"
  else if between 18.0 lat_f 22.0 && between (-162.0) lon_f (-154.0) then Some "HI"
  else None.

(** The test of the catch-all that follows the chain. *)
Definition phoenix_area (lat_f lon_f : float) : bool :=
  between 33.0 lat_f 34.0 && between (-112.5) lon_f (-111.0).

(** [state_abbr] when the DEBUG line is printed: the chain, then the
    catch-all when the chain left it at [None]. *)
Definition state_abbr (lat_f lon_f : float) : option string :=
  match state_chain lat_f lon_f with
  | None => if phoenix_area lat_f lon_f then Some "AZ" else None
  | Some s => Some s
  end.

(** The same predicates as a table: one closed latitude interval and one
    closed longitude interval per line, with the code it assigns. *)
Record Box : Type := mkBox {
  lat_lo : float;
  lat_hi : float;
  lon_lo : float;
  lon_hi : float
}.

Definition contains (b : Box) (lat_f lon_f : float) : bool :=
  between (lat_lo b) lat_f (lat_hi b) && between (lon_lo b) lon_f (lon_hi b).

Definition chain_boxes : list (Box * string) :=
  [(mkBox 24.5 31.0 (-87.6) (-80.0), "FL");
   (mkBox 30.0 35.0 (-88.0) (-80.0), "GA");
   (mkBox 32.0 35.0 (-88.0) (-80.0), "SC");
   (mkBox 33.0 36.0 (-84.0) (-75.0), "NC");
   (mkBox 36.0 39.0 (-84.0) (-75.0), "VA");
   (mkBox 38.0 40.0 (-79.0) (-75.0), "MD");
   (mkBox 39.0 42.0 (-80.0) (-74.0), "PA");
   (mkBox 40.0 45.0 (-79.0) (-71.0), "NY");
   (mkBox 41.0 42.0 (-73.0) (-71.0), "CT");
   (mkBox 41.0 43.0 (-72.0) (-70.0), "MA");
   (mkBox 43.0 45.0 (-72.0) (-70.0), "VT");
   (mkBox 43.0 47.0 (-71.0) (-66.0), "ME");
   (mkBox 40.0 42.0 (-75.0) (-73.0), "NJ");
   (mkBox 38.0 40.0 (-75.0) (-73.0), "DE");
   (mkBox 31.0 37.0 (-114.0) (-109.0), "AZ");
   (mkBox 31.0 37.0 (-115.0) (-108.0), "AZ");
   (mkBox 31.0 37.0 (-109.0) (-103.0), "NM");
   (mkBox 25.0 36.0 (-106.0) (-93.0), "TX");
   (mkBox 33.0 37.0 (-94.0) (-89.0), "AR");
   (mkBox 30.0 35.0 (-94.0) (-88.0), "LA");
   (mkBox 30.0 35.0 (-91.0) (-88.0), "MS");
   (mkBox 30.0 35.0 (-88.0) (-84.0), "AL");
   (mkBox 24.0 31.0 (-87.0) (-80.0), "FL");
   (mkBox 40.0 42.0 (-84.0) (-80.0), "OH");
   (mkBox 37.0 40.0 (-85.0) (-81.0), "WV");
   (mkBox 36.0 39.0 (-85.0) (-81.0), "KY");
   (mkBox 35.0 37.0 (-90.0) (-81.0), "TN");
   (mkBox 38.0 40.0 (-88.0) (-84.0), "IN");
   (mkBox 37.0 42.0 (-91.0) (-87.0), "IL");
   (mkBox 40.0 43.0 (-96.0) (-90.0), "IA");
   (mkBox 42.0 47.0 (-97.0) (-89.0), "WI");
   (mkBox 43.0 49.0 (-97.0) (-89.0), "MN");
   (mkBox 40.0 43.0 (-104.0) (-95.0), "NE");
   (mkBox 38.0 40.0 (-102.0) (-94.0), "KS");
   (mkBox 35.0 37.0 (-103.0) (-94.0), "OK");
   (mkBox 36.0 42.0 (-120.0) (-114.0), "NV");
   (mkBox 32.0 42.0 (-124.0) (-114.0), "CA");
   (mkBox 45.0 49.0 (-125.0) (-116.0), "WA");
   (mkBox 42.0 46.0 (-125.0) (-116.0), "OR");
   (mkBox 40.0 45.0 (-111.0) (-104.0), "CO");
   (mkBox 41.0 45.0 (-112.0) (-104.0), "UT");
   (mkBox 42.0 49.0 (-117.0) (-104.0), "MT");
   (mkBox 44.0 49.0 (-117.0) (-104.0), "ND");
   (mkBox 43.0 46.0 (-104.0) (-96.0), "SD");
   (mkBox 40.0 43.0 (-104.0) (-95.0), "WY");
   (mkBox 45.0 49.0 (-125.0) (-66.0), "AK");
   (mkBox 18.0 22.0 (-162.0) (-154.0), "HI")].

Definition phoenix_box : Box * string := (mkBox 33.0 34.0 (-112.5) (-111.0), "AZ").

(** Every predicate of the handler, in evaluation order. *)
Definition all_boxes : list (Box * string) := chain_boxes ++ [phoenix_box].

(** The code of the first box of a table that contains the coordinate. *)
Fixpoint first_match (boxes : list (Box * string)) (lat_f lon_f : float)
    : option string :=
  match boxes with
  | [] => None
  | (b, code) :: rest =>
    if contains b lat_f lon_f then Some code else first_match rest lat_f lon_f
  end.

End Classifier.

(** A record of the eight incident counts. *)
Definition crime_stats (homicide robbery aggravated_assault burglary larceny
    motor_vehicle_theft violent_crime property_crime : Z) : pyobj :=
  PyDict [("homicide", PyInt homicide); ("robbery", PyInt robbery);
          ("aggravated_assault", PyInt aggravated_assault);
          ("burglary", PyInt burglary); ("larceny", PyInt larceny);
          ("motor_vehicle_theft", PyInt motor_vehicle_theft);
          ("violent_crime", PyInt violent_crime);
          ("property_crime", PyInt property_crime)].

Definition state_crime_rates : list (string * pyobj) :=
  [("NY", crime_stats 5 120 180 280 1200 150 305 1630);
   ("CA", crime_stats 4 95 220 320 1400 280 319 2000);
   ("TX", crime_stats 6 110 250 350 1100 200 366 1650);
   ("FL", crime_stats 7 130 200 300 1000 180 337 1480);
   ("AZ", crime_stats 8 140 280 400 900 250 428 1550);
   ("IL", crime_stats 9 150 300 450 800 220 459 1470);
   ("PA", crime_stats 5 100 180 250 700 150 285 1100);
   ("OH", crime_stats 6 110 200 280 750 160 316 1190);
   ("GA", crime_stats 7 120 220 320 850 180 347 1350);
   ("NC", crime_stats 6 105 190 270 720 140 301 1130);
   ("MI", crime_stats 8 125 240 350 780 200 373 1330);
   ("NJ", crime_stats 4 90 160 220 650 120 254 990);
   ("VA", crime_stats 5 95 170 240 680 130 270 1050);
   ("WA", crime_stats 4 85 150 200 600 110 239 910);
   ("MA", crime_stats 3 80 140 180 550 100 223 830);
   ("TN", crime_stats 7 115 210 290 760 170 332 1220);
   ("IN", crime_stats 6 100 180 260 700 150 286 1110);
   ("MO", crime_stats 8 130 250 340 820 190 388 1350);
   ("MD", crime_stats 9 140 270 380 900 210 419 1490);
   ("WI", crime_stats 5 90 160 220 620 120 255 960);
   ("CO", crime_stats 4 85 150 200 580 110 239 890);
   ("MN", crime_stats 3 75 130 180 520 100 208 800);
   ("SC", crime_stats 8 125 230 320 800 180 363 1300);
   ("AL", crime_stats 9 135 260 360 850 200 404 1420);
   ("LA", crime_stats 12 160 320 420 950 250 492 1620);
   ("KY", crime_stats 6 105 190 270 720 150 301 1140);
   ("OR", crime_stats 4 80 140 190 560 110 224 860);
   ("OK", crime_stats 7 115 220 300 750 170 342 1220);
   ("CT", crime_stats 3 70 120 160 480 90 193 730);
   ("UT", crime_stats 2 60 100 140 400 80 162 620);
   ("IA", crime_stats 2 55 90 120 350 70 147 540);
   ("NV", crime_stats 6 110 200 280 700 160 316 1140);
   ("AR", crime_stats 8 125 240 330 780 180 373 1290);
   ("MS", crime_stats 10 145 280 380 900 220 435 1500);
   ("KS", crime_stats 5 90 160 220 620 130 255 970);
   ("NM", crime_stats 8 130 250 340 800 190 388 1330);
   ("NE", crime_stats 3 65 110 150 420 90 178 660);
   ("WV", crime_stats 6 100 180 250 680 140 286 1070);
   ("ID", crime_stats 2 50 80 110 320 60 132 490);
   ("HI", crime_stats 2 45 70 100 280 50 117 430);
   ("NH", crime_stats 1 40 60 80 240 40 101 360);
   ("ME", crime_stats 1 35 50 70 200 35 86 305);
   ("MT", crime_stats 2 45 70 90 260 50 117 400);
   ("RI", crime_stats 2 50 80 100 300 60 132 460);
   ("DE", crime_stats 4 70 120 160 480 100 194 740);
   ("SD", crime_stats 2 40 60 80 220 40 102 340);
   ("ND", crime_stats 1 30 40 60 160 30 71 250);
   ("AK", crime_stats 4 60 100 120 360 80 164 560);
   ("VT", crime_stats 1 25 35 50 140 25 61 215);
   ("WY", crime_stats 1 20 30 40 120 20 51 180)].

(** The default of the lookup in [state_crime_rates]. *)
Definition default_crime_data : pyobj :=
  crime_stats 5 100 180 250 700 150 285 1100.

(** The statistics of the demo answer. *)
Definition demo_stats : pyobj :=
  PyDict [("homicide", PyInt 3); ("robbery", PyInt 55);
          ("aggravated_assault", PyInt 210); ("burglary", PyInt 230);
          ("larceny", PyInt 900); ("motor_vehicle_theft", PyInt 220);
          ("violent_crime", PyInt 420); ("property_crime", PyInt 1350);
          ("year", PyInt 2023)].

(** [x and len(x) == 2] for an optional string. *)
Definition two_letters (o : option string) : bool :=
  negb (py_not o) &&
  match o with
  | Some s => Nat.eqb (String.length s) 2
  | None => false
  end.

Section Crime.

(** Python's [float] on a string: the number read, or [None] where the
    built-in raises [ValueError]. *)
Variable float_of_string : string -> option float.

(** [float(x)] for an optional string. *)
Definition py_float (o : option string) : result float :=
  match o with
  | None => Raise TypeError
  | Some s =>
    match float_of_string s with
    | Some f => Ok f
    | None => Raise ValueError
    end
  end.

Definition get_crime (req : Request) : M FlaskResponse :=
  let lat := args_get req "lat" in
  let lon := args_get req "lon" in
  if py_not lat || py_not lon then ret missing_coordinates
  else
    lat_f <- lift (py_float lat) ;;
    lon_f <- lift (py_float lon) ;;
    let state := state_abbr lat_f lon_f in
    print ("DEBUG: Coordinates " ++ format lat ++ "," ++ format lon
           ++ " mapped to state: " ++ format state) ;;;
    if two_letters state
    then
      let crime_data :=
        dict_get_opt state_crime_rates state default_crime_data in
      ret (respond (PyDict [("scope", PyStr "state"); ("source", PyStr "mock");
                            ("state", opt_str state); ("stats", crime_data)]))
    else
      ret (respond (PyDict [("scope", PyStr "demo"); ("source", PyStr "demo");
                            ("state", opt_str state); ("stats", demo_stats)])).

End Crime.

(** A reader of the three decimal literals used in the examples below; it
    agrees with Python's [float] on them and on the word [abc], which both
    reject. *)
Definition sample_float_of_string (s : string) : option float :=
  if String.eqb s "30.5" then Some 30.5%float
  else if String.eqb s "-85.0" then Some (-85.0)%float
  else if String.eqb s "10.0" then Some 10.0%float
  else None.

(** An upstream that answers every request with a given status and body. *)
Definition always (code : Z) (txt : string) (js : result pyobj)
    : GetRequest -> result Response :=
  fun _ => Ok (mkResponse code txt js).

(** An upstream that cannot be reached. *)
Definition unreachable : GetRequest -> result Response :=
  fun _ => Raise ConnectionError.

Definition empty_world : World := mkWorld [] [].

(** [sub] occurs in [s]. *)
Definition occurs (sub s : string) : Prop :=
  exists pre post, s = pre ++ sub ++ post.

(** Free text: a string without the character [<], which opens every tag. *)
Fixpoint no_lt (s : string) : bool :=
  match s with
  | EmptyString => true
  | String c s' => negb (Ascii.eqb c "<") && no_lt s'
  end.

(** A string that neither starts nor ends with a whitespace character. *)
Definition trimmed (s : string) : Prop :=
  (forall c r, s = String c r -> is_space c = false) /\
  (forall r c, s = r ++ String c "" -> is_space c = false).

(** The body of a well-formed item: the three tag pairs in the order of the
    feed, with text around and inside them. *)
Definition item_chunk (p0 t p1 l p2 d post : string) : string :=
  p0 ++ "<title>" ++ t ++ "</title>" ++ p1 ++ "<link>" ++ l ++ "</link>" ++ p2
  ++ "<description>" ++ d ++ "</description>" ++ post.

(** [b] lies inside [b']: every bound of [b'] is at least as wide. *)
Definition box_inside (b b' : Box) : bool :=
  ((lat_lo b' <=? lat_lo b) && (lat_hi b <=? lat_hi b')
   && (lon_lo b' <=? lon_lo b) && (lon_hi b <=? lon_hi b'))%float.

(** The codes of the boxes of a table that do not lie inside a box tested
    before them; [earlier] is the list of the boxes already tested. *)
Fixpoint live_codes (earlier : list Box) (boxes : list (Box * string))
    : list string :=
  match boxes with
  | [] => []
  | (b, code) :: rest =>
    (if existsb (box_inside b) earlier then [] else [code])
    ++ live_codes (earlier ++ [b]) rest
  end.

(** The codes the classifier resolves for some coordinate, in the order the
    chain first assigns them. *)
Definition resolved_codes : list string :=
  ["FL"; "GA"; "NC"; "VA"; "MD"; "PA"; "NY"; "MA"; "VT"; "ME"; "DE";
   "AZ"; "NM"; "TX"; "AR"; "LA"; "OH"; "WV"; "KY"; "TN"; "IN"; "IL";
   "IA"; "WI"; "MN"; "NE"; "KS"; "OK"; "NV"; "CA"; "WA"; "OR"; "CO";
   "UT"; "MT"; "SD"; "AK"; "HI"].

(** One coordinate for each of them. *)
Definition code_samples : list (string * (float * float)) :=
  [("FL", (24.0, (-87.0)));
   ("GA", (30.0, (-88.0)));
   ("NC", (33.0, (-79.5)));
   ("VA", (36.5, (-84.0)));
   ("MD", (39.5, (-79.0)));
   ("PA", (39.0, (-74.5)));
   ("NY", (40.0, (-73.5)));
   ("MA", (41.0, (-70.5)));
   ("VT", (43.5, (-70.5)));
   ("ME", (43.0, (-68.0)));
   ("DE", (38.0, (-74.5)));
   ("AZ", (31.0, (-115.0)));
   ("NM", (31.0, (-107.0)));
   ("TX", (25.0, (-106.0)));
   ("AR", (33.0, (-92.0)));
   ("LA", (30.0, (-92.0)));
   ("OH", (40.0, (-84.0)));
   ("WV", (37.0, (-85.0)));
   ("KY", (36.0, (-85.0)));
   ("TN", (35.5, (-88.5)));
   ("IN", (38.0, (-88.0)));
   ("IL", (37.5, (-91.0)));
   ("IA", (40.0, (-96.0)));
   ("WI", (42.0, (-97.0)));
   ("MN", (48.0, (-97.0)));
   ("NE", (40.0, (-104.0)));
   ("KS", (38.0, (-102.0)));
   ("OK", (36.5, (-102.5)));
   ("NV", (36.0, (-120.0)));
   ("CA", (32.0, (-124.0)));
   ("WA", (45.0, (-125.0)));
   ("OR", (42.0, (-125.0)));
   ("CO", (40.0, (-111.0)));
   ("UT", (41.0, (-112.0)));
   ("MT", (42.0, (-113.25)));
   ("SD", (43.5, (-103.5)));
   ("AK", (45.0, (-88.5)));
   ("HI", (18.0, (-162.0)))]%float.

(** The entry [k] of a record of counts, when it is an integer. *)
Definition int_field (k : string) (o : pyobj) : option Z :=
  match field k o with
  | Some (PyInt z) => Some z
  | _ => None
  end.

(** The two totals of a record are the sums of their parts. *)
Definition sums_consistent (stats : pyobj) : bool :=
  match int_field "homicide" stats, int_field "robbery" stats,
        int_field "aggravated_assault" stats, int_field "burglary" stats,
        int_field "larceny" stats, int_field "motor_vehicle_theft" stats,
        int_field "violent_crime" stats, int_field "property_crime" stats with
  | Some h, Some r, Some a, Some b, Some l, Some m, Some v, Some p =>
    (v =? h + r + a) && (p =? b + l + m)
  | _, _, _, _, _, _, _, _ => false
  end.

(** A reader of a few more literals, among them [nan], which Python's
    [float] reads as the not-a-number value. *)
Definition sample_float_of_string' (s : string) : option float :=
  if String.eqb s "nan" then Some nan
  else if String.eqb s "60.0" then Some 60.0%float
  else if String.eqb s "33.4" then Some 33.4%float
  else if String.eqb s "-112.0" then Some (-112.0)%float
  else sample_float_of_string s.

(** The alert made of a feature [d] and of its properties [p]: the entry
    of each key, [None] where there is none. *)
Definition alert_record (d p : list (string * pyobj)) : pyobj :=
  PyDict [("id", dict_get d "id" PyNone);
          ("event", dict_get p "event" PyNone);
          ("headline", dict_get p "headline" PyNone);
          ("areaDesc", dict_get p "areaDesc" PyNone);
          ("severity", dict_get p "severity" PyNone);
          ("urgency", dict_get p "urgency" PyNone);
          ("effective", dict_get p "effective" PyNone);
          ("expires", dict_get p "expires" PyNone);
          ("instruction", dict_get p "instruction" PyNone)].

(** A feature that can be projected: an object whose [properties], when it
    has any, are an object. *)
Definition feature_parts (f : pyobj)
    : option (list (string * pyobj) * list (string * pyobj)) :=
  match f with
  | PyDict d =>
    match lookup "properties" d with
    | None => Some (d, [])
    | Some (PyDict p) => Some (d, p)
    | Some _ => None
    end
  | _ => None
  end.

(** * Properties *)

(** ** The fetch helper *)

(** What [safe_get] returns and leaves behind, in one equation. *)
Lemma safe_get_run upstream url params headers w :
  safe_get upstream url params headers w =
  (Ok match upstream (mkGet url params headers DEFAULT_TIMEOUT) with
      | Ok resp => if is_http_error (status_code resp) then None else Some resp
      | Raise _ => None
      end,
   mkWorld (sent w ++ [mkGet url params headers DEFAULT_TIMEOUT]) (stdout w)).
Proof.
  unfold safe_get, try_except, requests_get, raise_for_status, lift; simpl.
  destruct (upstream _) as [resp|e]; [|reflexivity].
  destruct (is_http_error (status_code resp)); reflexivity.
Qed.

(** A response handed back by [safe_get] is truthy. *)
Lemma safe_get_truthy upstream url params headers w r :
  fst (safe_get upstream url params headers w) = Ok r ->
  truthy r = match r with Some _ => true | None => false end.
Proof.
  rewrite safe_get_run; simpl. intros H. injection H as <-.
  destruct (upstream _) as [resp|e]; [|reflexivity].
  destruct (is_http_error (status_code resp)) eqn:E; [reflexivity|].
  simpl. unfold Response_bool. now rewrite E.
Qed.

Lemma safe_get_never_raises upstream url params headers w :
  exists r, fst (safe_get upstream url params headers w) = Ok r.
Proof. rewrite safe_get_run. eexists. reflexivity. Qed.

Lemma is_http_error_2xx code : 200 <= code < 300 -> is_http_error code = false.
Proof. unfold is_http_error. lia. Qed.

(** C7, as the code has it: one GET is sent, nothing is raised, a response
    whose status is outside 400..599 (every 2xx among them) is returned, and
    a connection failure, a timeout, a malformed response or a status in
    400..599 gives the unavailable outcome [None]. *)
Theorem safe_get_one_attempt_no_raise upstream url params headers w :
  let rq := mkGet url params headers DEFAULT_TIMEOUT in
  (exists r, safe_get upstream url params headers w
             = (Ok r, mkWorld (sent w ++ [rq]) (stdout w))) /\
  (forall resp, upstream rq = Ok resp -> 200 <= status_code resp < 300 ->
     fst (safe_get upstream url params headers w) = Ok (Some resp)) /\
  (forall resp, upstream rq = Ok resp ->
     ~ (400 <= status_code resp < 600) ->
     fst (safe_get upstream url params headers w) = Ok (Some resp)) /\
  (forall resp, upstream rq = Ok resp -> 400 <= status_code resp < 600 ->
     fst (safe_get upstream url params headers w) = Ok None) /\
  (forall e, upstream rq = Raise e ->
     fst (safe_get upstream url params headers w) = Ok None).
Proof.
  intros rq. rewrite safe_get_run. fold rq. simpl.
  split; [eexists; reflexivity|].
  repeat split.
  - intros resp -> H. now rewrite is_http_error_2xx.
  - intros resp -> H.
    replace (is_http_error (status_code resp)) with false; [reflexivity|].
    unfold is_http_error. lia.
  - intros resp -> H.
    replace (is_http_error (status_code resp)) with true; [reflexivity|].
    unfold is_http_error. lia.
  - intros e ->. reflexivity.
Qed.

Lemma safe_get_one_attempt_no_raise_witness :
  fst (safe_get (always 204 "" (Raise JSONDecodeError)) "http://x" None None
         empty_world)
  = Ok (Some (mkResponse 204 "" (Raise JSONDecodeError))).
Proof.
  apply (safe_get_one_attempt_no_raise (always 204 "" (Raise JSONDecodeError))
           "http://x" None None empty_world).
  - reflexivity.
  - simpl. lia.
Defined.

(** C7 as the specification words it fails: a 304 answer is not a 2xx
    status, and [safe_get] hands it back instead of reporting the upstream
    unavailable. *)
Lemma safe_get_non_2xx_not_unavailable :
  ~ (forall upstream url params headers w resp,
       upstream (mkGet url params headers DEFAULT_TIMEOUT) = Ok resp ->
       ~ (200 <= status_code resp < 300) ->
       fst (safe_get upstream url params headers w) = Ok None).
Proof.
  intros H.
  specialize (H (always 304 "" (Raise JSONDecodeError)) "http://x" None None
                empty_world (mkResponse 304 "" (Raise JSONDecodeError))
                eq_refl).
  simpl in H. discriminate H. lia.
Qed.

(** ** Missing coordinates *)

Lemma py_not_missing lat lon :
  lat = None \/ lon = None -> py_not lat || py_not lon = true.
Proof. intros [->| ->]; simpl; [reflexivity|apply orb_true_r]. Qed.

Lemma py_not_present (o : option string) s :
  o = Some s -> s <> "" -> py_not o = false.
Proof.
  intros -> H. simpl. destruct (String.eqb_spec s ""); [contradiction|reflexivity].
Qed.

(** C1: when [lat] or [lon] is missing from the query, each of the weather,
    alerts and crime endpoints answers 400 with the JSON error body, whichever
    of the two is missing; nothing is sent upstream or printed. *)
Theorem missing_coordinate_400 upstream float_of_string (req : Request) w :
  args_get req "lat" = None \/ args_get req "lon" = None ->
  let bad_request :=
    mkFlask (PyDict [("error", PyStr "lat and lon are required")]) 400 in
  get_weather upstream req w = (Ok bad_request, w) /\
  get_alerts upstream req w = (Ok bad_request, w) /\
  get_crime float_of_string req w = (Ok bad_request, w).
Proof.
  intros H bad. apply py_not_missing in H.
  unfold get_weather, get_alerts, get_crime. rewrite H.
  repeat split.
Qed.

Lemma missing_coordinate_400_witness :
  get_weather unreachable [("lon", "-85.0")] empty_world
  = (Ok (mkFlask (PyDict [("error", PyStr "lat and lon are required")]) 400),
     empty_world) /\
  get_crime sample_float_of_string [("lat", "30.5")] empty_world
  = (Ok (mkFlask (PyDict [("error", PyStr "lat and lon are required")]) 400),
     empty_world).
Proof.
  split.
  - apply (missing_coordinate_400 unreachable sample_float_of_string
             [("lon", "-85.0")] empty_world).
    left. reflexivity.
  - apply (missing_coordinate_400 unreachable sample_float_of_string
             [("lat", "30.5")] empty_world).
    right. reflexivity.
Defined.

(** ** The weather endpoint *)

(** The request [get_weather] sends for the coordinates [lat], [lon]. *)
Lemma get_weather_run upstream req w lat lon :
  args_get req "lat" = Some lat -> lat <> "" ->
  args_get req "lon" = Some lon -> lon <> "" ->
  get_weather upstream req w =
  let run := safe_get upstream "https://api.open-meteo.com/v1/forecast"
               (Some (weather_params (Some lat) (Some lon))) None w in
  match fst run with
  | Ok None => (Ok weather_unavailable, snd run)
  | Ok (Some r) =>
    match json r with
    | Ok (PyDict d) =>
      (Ok (respond (PyDict [("current", dict_get d "current" (PyDict []));
                            ("source", PyStr "open-meteo")])), snd run)
    | Ok _ => (Raise AttributeError, snd run)
    | Raise e => (Raise e, snd run)
    end
  | Raise e => (Raise e, snd run)
  end.
Proof.
  intros Hlat Hlat' Hlon Hlon'. unfold get_weather.
  rewrite Hlat, Hlon.
  rewrite (py_not_present _ lat eq_refl Hlat'), (py_not_present _ lon eq_refl Hlon').
  cbn [orb]. cbv zeta.
  cbn [bind Monad_M].
  pose proof (safe_get_truthy upstream "https://api.open-meteo.com/v1/forecast"
                (Some (weather_params (Some lat) (Some lon))) None w) as T.
  destruct (safe_get upstream _ _ _ w) as [[r|e] w']; [|reflexivity].
  specialize (T r eq_refl). cbn [fst snd]. rewrite T.
  destruct r as [r|]; [|reflexivity].
  cbn [negb resp_json lift].
  destruct (json r) as [[]|e]; reflexivity.
Qed.

(** What the weather endpoint does get right: with both coordinates given,
    an unavailable fetch gives 502 with [current] null and the note
    [unavailable]; a fetch that succeeds with a body that decodes to a JSON
    object gives 200 with [current] the object's [current] entry as it is,
    the empty mapping when there is none, and the source tag. *)
Theorem weather_unavailable_or_passthrough upstream (req : Request) w lat lon :
  args_get req "lat" = Some lat -> lat <> "" ->
  args_get req "lon" = Some lon -> lon <> "" ->
  let run := safe_get upstream "https://api.open-meteo.com/v1/forecast"
               (Some (weather_params (Some lat) (Some lon))) None w in
  (fst run = Ok None ->
   get_weather upstream req w
   = (Ok (mkFlask (PyDict [("current", PyNone); ("source", PyStr "open-meteo");
                           ("note", PyStr "unavailable")]) 502), snd run)) /\
  (forall r d, fst run = Ok (Some r) -> json r = Ok (PyDict d) ->
   get_weather upstream req w
   = (Ok (mkFlask (PyDict [("current",
                            match lookup "current" d with
                            | Some current => current
                            | None => PyDict []
                            end);
                           ("source", PyStr "open-meteo")]) 200), snd run)).
Proof.
  intros Hlat Hlat' Hlon Hlon' run.
  rewrite (get_weather_run upstream req w lat lon Hlat Hlat' Hlon Hlon').
  fold run. cbv zeta. split.
  - intros ->. reflexivity.
  - intros r d -> ->. reflexivity.
Qed.

Lemma weather_unavailable_or_passthrough_witness :
  fst (get_weather
         (always 200 "" (Ok (PyDict [("current",
                                      PyDict [("temperature_2m", PyFloat 21.5)])])))
         [("lat", "30.5"); ("lon", "-85.0")] empty_world)
  = Ok (mkFlask (PyDict [("current", PyDict [("temperature_2m", PyFloat 21.5)]);
                         ("source", PyStr "open-meteo")]) 200) /\
  fst (get_weather unreachable [("lat", "30.5"); ("lon", "-85.0")] empty_world)
  = Ok (mkFlask (PyDict [("current", PyNone); ("source", PyStr "open-meteo");
                         ("note", PyStr "unavailable")]) 502).
Proof.
  split.
  - pose proof (weather_unavailable_or_passthrough
             (always 200 "" (Ok (PyDict [("current",
                PyDict [("temperature_2m", PyFloat 21.5)])])))
             [("lat", "30.5"); ("lon", "-85.0")] empty_world "30.5" "-85.0"
             eq_refl ltac:(discriminate) eq_refl ltac:(discriminate)) as [_ H].
    rewrite (H _ _ eq_refl eq_refl). reflexivity.
  - pose proof (weather_unavailable_or_passthrough unreachable
             [("lat", "30.5"); ("lon", "-85.0")] empty_world "30.5" "-85.0"
             eq_refl ltac:(discriminate) eq_refl ltac:(discriminate)) as [H _].
    rewrite (H eq_refl). reflexivity.
Defined.

(** C2 fails on the code where the fetch succeeds and the body cannot be
    decoded to an object.  The handler calls [json()] and [get] outside any
    [try]: on a 200 answer whose body is not JSON it raises the decoding
    error, and on a body that is a JSON list it raises [AttributeError], so
    no response with a [current] field is produced at all.  The alerts
    handler, which wraps the same decoding in [try]/[except], answers 200
    with an empty list on the same upstream. *)
Theorem weather_raises_on_undecodable_body :
  let req := [("lat", "30.5"); ("lon", "-85.0")] in
  fst (get_weather (always 200 "<html>" (Raise JSONDecodeError)) req empty_world)
  = Raise JSONDecodeError /\
  fst (get_weather (always 200 "[]" (Ok (PyList []))) req empty_world)
  = Raise AttributeError /\
  fst (get_alerts (always 200 "<html>" (Raise JSONDecodeError)) req empty_world)
  = Ok (mkFlask (PyDict [("alerts", PyList []); ("source", PyStr "NWS")]) 200).
Proof.
  cbv zeta. split; [|split].
  - reflexivity.
  - reflexivity.
  - reflexivity.
Qed.

(** ** The alerts endpoint *)

(** One feature that cannot be projected makes the whole loop raise,
    whatever was appended before it. *)
Lemma project_loop_raises features : forall alerts f e,
  In f features -> project_feature f = Raise e ->
  exists e', project_loop alerts features = Raise e'.
Proof.
  induction features as [|g rest IH]; intros alerts f e Hin Hf; [destruct Hin|].
  cbn [project_loop bind Monad_result].
  destruct Hin as [->|Hin].
  - rewrite Hf. eexists. reflexivity.
  - destruct (project_feature g) as [a|e0]; [|eexists; reflexivity].
    apply (IH _ f e Hin Hf).
Qed.

(** When every feature projects, the loop appends the projections in order. *)
Lemma project_loop_ok features : forall alerts projected,
  Forall2 (fun f a => project_feature f = Ok a) features projected ->
  project_loop alerts features = Ok (alerts ++ projected)%list.
Proof.
  induction features as [|g rest IH]; intros alerts projected H; inversion H; subst.
  - now rewrite app_nil_r.
  - cbn [project_loop bind Monad_result]. rewrite H2.
    rewrite (IH _ _ H4), <- app_assoc. reflexivity.
Qed.

Lemma get_alerts_run upstream req w lat lon :
  args_get req "lat" = Some lat -> lat <> "" ->
  args_get req "lon" = Some lon -> lon <> "" ->
  get_alerts upstream req w =
  let run := safe_get upstream "https://api.weather.gov/alerts/active"
               (Some [("point", PyStr (lat ++ "," ++ lon))])
               (Some [("Accept", "application/geo+json")]) w in
  match fst run with
  | Ok None => (Ok (alerts_response []), snd run)
  | Ok (Some r) =>
    (Ok (alerts_response
           match parse_alerts (Some r) with
           | Ok alerts => alerts
           | Raise _ => []
           end), snd run)
  | Raise e => (Raise e, snd run)
  end.
Proof.
  intros Hlat Hlat' Hlon Hlon'. unfold get_alerts.
  rewrite Hlat, Hlon.
  rewrite (py_not_present _ lat eq_refl Hlat'), (py_not_present _ lon eq_refl Hlon').
  cbn [orb format]. cbv zeta.
  cbn [bind Monad_M].
  pose proof (safe_get_truthy upstream "https://api.weather.gov/alerts/active"
                (Some [("point", PyStr (lat ++ "," ++ lon))])
                (Some [("Accept", "application/geo+json")]) w) as T.
  destruct (safe_get upstream _ _ _ w) as [[r|e] w']; [|reflexivity].
  specialize (T r eq_refl). cbn [fst snd]. rewrite T.
  destruct r as [r|]; reflexivity.
Qed.


(** C3: with both coordinates given, the alerts endpoint always answers 200
    with a list of alerts and the source tag; the list is empty when the
    upstream is unavailable, and empty as well when one of the upstream
    features cannot be projected, whatever the other features are. *)
Theorem alerts_empty_on_failure upstream (req : Request) w lat lon :
  args_get req "lat" = Some lat -> lat <> "" ->
  args_get req "lon" = Some lon -> lon <> "" ->
  let run := safe_get upstream "https://api.weather.gov/alerts/active"
               (Some [("point", PyStr (lat ++ "," ++ lon))])
               (Some [("Accept", "application/geo+json")]) w in
  let answer alerts :=
    (Ok (mkFlask (PyDict [("alerts", PyList alerts); ("source", PyStr "NWS")])
           200), snd run) in
  (exists alerts, get_alerts upstream req w = answer alerts) /\
  (fst run = Ok None -> get_alerts upstream req w = answer []) /\
  (forall r data features items f e,
     fst run = Ok (Some r) -> json r = Ok data ->
     py_get data "features" (PyList []) = Ok features ->
     py_iter features = Ok items ->
     In f items -> project_feature f = Raise e ->
     get_alerts upstream req w = answer []).
Proof.
  intros Hlat Hlat' Hlon Hlon' run answer.
  rewrite (get_alerts_run upstream req w lat lon Hlat Hlat' Hlon Hlon').
  fold run. cbv zeta. unfold answer. repeat split.
  - destruct (safe_get_never_raises upstream
                "https://api.weather.gov/alerts/active"
                (Some [("point", PyStr (lat ++ "," ++ lon))])
                (Some [("Accept", "application/geo+json")]) w) as [r Hr].
    fold run in Hr. rewrite Hr. destruct r; eexists; reflexivity.
  - intros ->. reflexivity.
  - intros r data features items f e -> Hd Hf Hi Hin Hp.
    unfold parse_alerts. cbn [resp_json bind Monad_result].
    rewrite Hd, Hf, Hi.
    destruct (project_loop_raises items [] f e Hin Hp) as [e' ->].
    reflexivity.
Qed.

Lemma alerts_empty_on_failure_witness :
  get_alerts unreachable [("lat", "30.5"); ("lon", "-85.0")] empty_world
  = (Ok (mkFlask (PyDict [("alerts", PyList []); ("source", PyStr "NWS")]) 200),
     mkWorld [mkGet "https://api.weather.gov/alerts/active"
                (Some [("point", PyStr "30.5,-85.0")])
                (Some [("Accept", "application/geo+json")]) 12] []) /\
  fst (get_alerts
         (always 200 ""
            (Ok (PyDict [("features",
                          PyList [PyDict [("id", PyStr "a1")]; PyInt 7])])))
         [("lat", "30.5"); ("lon", "-85.0")] empty_world)
  = Ok (mkFlask (PyDict [("alerts", PyList []); ("source", PyStr "NWS")]) 200).
Proof.
  split.
  - pose proof (alerts_empty_on_failure unreachable
             [("lat", "30.5"); ("lon", "-85.0")] empty_world "30.5" "-85.0"
             eq_refl ltac:(discriminate) eq_refl ltac:(discriminate))
      as (_ & H & _).
    rewrite (H eq_refl). reflexivity.
  - pose proof (alerts_empty_on_failure
             (always 200 ""
                (Ok (PyDict [("features",
                              PyList [PyDict [("id", PyStr "a1")]; PyInt 7])])))
             [("lat", "30.5"); ("lon", "-85.0")] empty_world "30.5" "-85.0"
             eq_refl ltac:(discriminate) eq_refl ltac:(discriminate))
      as (_ & _ & H).
    rewrite (H _ _ _ _ (PyInt 7) AttributeError eq_refl eq_refl eq_refl eq_refl
               ltac:(right; left; reflexivity) eq_refl).
    reflexivity.
Defined.

(** ** The feed extraction *)

Lemma prefix_occurs sub : forall s,
  prefix sub s = true -> exists post, s = sub ++ post.
Proof.
  induction sub as [|c sub IH]; intros s H.
  - exists s. reflexivity.
  - destruct s as [|c' s]; [discriminate|]. simpl in H.
    destruct (ascii_dec c c') as [->|]; [|discriminate].
    destruct (IH s H) as [post ->]. exists post. reflexivity.
Qed.

Lemma find_from_found sub : forall s i,
  find_from sub s i <> -1 -> occurs sub s.
Proof.
  induction s as [|c s IH]; intros i H; cbn [find_from] in H.
  - destruct (prefix sub "") eqn:P; [|contradiction].
    destruct (prefix_occurs _ _ P) as [post E]. exists "", post. exact E.
  - destruct (prefix sub (String c s)) eqn:P.
    + destruct (prefix_occurs _ _ P) as [post E]. exists "", post. exact E.
    + destruct (IH _ H) as (pre & post & ->).
      exists (String c pre), post. reflexivity.
Qed.

(** A tag that does not occur in a chunk is not found. *)
Lemma find_absent s sub : ~ occurs sub s -> find s sub = -1.
Proof.
  intros H. destruct (Z.eq_dec (find s sub) (-1)) as [E|E]; [exact E|].
  exfalso. apply H. exact (find_from_found sub s 0 E).
Qed.

Lemma pair_absent s opening closing :
  ~ occurs opening s \/ ~ occurs closing s ->
  negb (find s opening =? -1) && negb (find s closing =? -1) = false.
Proof.
  intros [H|H]; rewrite (find_absent _ _ H); [reflexivity|apply andb_false_r].
Qed.

(** C4: the sample body yields the one item with the three fields of the
    specification; and a chunk in which the opening or the closing title tag
    does not occur gets the title [AMBER Alert], a chunk without one of the
    link tags the empty link, a chunk without one of the description tags the
    empty description. *)
Theorem amber_extraction :
  amber_items
    "<item><title>Missing: Jane Doe</title><link>http://x</link><description>5yo female</description></item>"
  = [PyDict [("title", PyStr "Missing: Jane Doe"); ("link", PyStr "http://x");
             ("description", PyStr "5yo female")]] /\
  (forall chunk,
     ~ occurs "<title>" chunk \/ ~ occurs "</title>" chunk ->
     field "title" (amber_item chunk) = Some (PyStr "AMBER Alert")) /\
  (forall chunk,
     ~ occurs "<link>" chunk \/ ~ occurs "</link>" chunk ->
     field "link" (amber_item chunk) = Some (PyStr "")) /\
  (forall chunk,
     ~ occurs "<description>" chunk \/ ~ occurs "</description>" chunk ->
     field "description" (amber_item chunk) = Some (PyStr "")).
Proof.
  split; [vm_compute; reflexivity|].
  repeat split; intros chunk H; unfold amber_item; cbv zeta;
    rewrite (pair_absent _ _ _ H); reflexivity.
Qed.

Lemma prefix_app sub : forall post, prefix sub (sub ++ post) = true.
Proof.
  induction sub as [|c sub IH]; intros post; simpl.
  - destruct post; reflexivity.
  - destruct (ascii_dec c c); [apply IH|contradiction].
Qed.

Lemma find_from_present sub post : forall pre i,
  0 <= i -> find_from sub (pre ++ sub ++ post) i <> -1.
Proof.
  induction pre as [|c pre IH]; intros i Hi.
  - change ("" ++ sub ++ post) with (sub ++ post).
    destruct (sub ++ post) eqn:E; cbn [find_from]; rewrite <- E, prefix_app; lia.
  - change (String c pre ++ sub ++ post) with (String c (pre ++ sub ++ post)).
    cbn [find_from]. destruct (prefix sub _); [lia|]. apply IH. lia.
Qed.

(** [find] answers -1 exactly when the tag does not occur. *)
Lemma find_spec s sub : find s sub = -1 <-> ~ occurs sub s.
Proof.
  split.
  - intros E (pre & post & ->). revert E. apply find_from_present. lia.
  - apply find_absent.
Qed.

Lemma amber_extraction_witness :
  field "title" (amber_item "<link>http://y</link>") = Some (PyStr "AMBER Alert") /\
  field "description" (amber_item "<title>t</title><description>cut")
  = Some (PyStr "").
Proof.
  split.
  - apply amber_extraction. left. apply find_spec. reflexivity.
  - apply amber_extraction. right. apply find_spec. reflexivity.
Defined.

(** The string operations on a few inputs, as Python evaluates them. *)
Example split_example :
  split "a<item>b<item>" "<item>" = ["a"; "b"; ""].
Proof. reflexivity. Qed.

Example slice_example :
  slice "<title> x </title>" 7 10 = " x " /\ slice "abc" 2 1 = "" /\
  slice "abc" 1 7 = "bc".
Proof. repeat split. Qed.

Example strip_example : strip "  5yo  female " = "5yo  female".
Proof. reflexivity. Qed.

Example amber_items_example :
  amber_items "<rss><item><title> A </title></item><item><link>l</link></item>"
  = [PyDict [("title", PyStr "A"); ("link", PyStr ""); ("description", PyStr "")];
     PyDict [("title", PyStr "AMBER Alert"); ("link", PyStr "l");
             ("description", PyStr "")]].
Proof. reflexivity. Qed.

(** ** The region classifier *)

(** The [if]/[elif] chain is the first match in the table of its boxes. *)
Lemma state_chain_table lat_f lon_f :
  state_chain lat_f lon_f = first_match chain_boxes lat_f lon_f.
Proof. reflexivity. Qed.

Lemma first_match_app l1 l2 lat_f lon_f :
  first_match (l1 ++ l2) lat_f lon_f =
  match first_match l1 lat_f lon_f with
  | Some code => Some code
  | None => first_match l2 lat_f lon_f
  end.
Proof.
  induction l1 as [|[b code] l1 IH]; [reflexivity|].
  cbn [app first_match]. destruct (contains b lat_f lon_f); [reflexivity|exact IH].
Qed.

(** With the catch-all, [state_abbr] is the first match among all the
    predicates of the handler. *)
Lemma state_abbr_table lat_f lon_f :
  state_abbr lat_f lon_f = first_match all_boxes lat_f lon_f.
Proof.
  unfold state_abbr, all_boxes. rewrite first_match_app.
  change (first_match chain_boxes lat_f lon_f) with (state_chain lat_f lon_f).
  destruct (state_chain lat_f lon_f); reflexivity.
Qed.

(** In any table, as soon as some box contains the coordinate, the first
    match is the code of the earliest such box. *)
Lemma first_match_earliest lat_f lon_f boxes : forall i b code,
  nth_error boxes i = Some (b, code) ->
  contains b lat_f lon_f = true ->
  exists j b' code',
    (j <= i)%nat /\
    nth_error boxes j = Some (b', code') /\
    contains b' lat_f lon_f = true /\
    (forall k bk ck, (k < j)%nat -> nth_error boxes k = Some (bk, ck) ->
       contains bk lat_f lon_f = false) /\
    first_match boxes lat_f lon_f = Some code'.
Proof.
  induction boxes as [|[b0 c0] rest IH]; intros i b code Hn Hc.
  - destruct i; discriminate.
  - cbn [first_match]. destruct (contains b0 lat_f lon_f) eqn:E0.
    + exists 0%nat, b0, c0. repeat split; try assumption; [lia|].
      intros k bk ck Hk. lia.
    + destruct i as [|i]; cbn [nth_error] in Hn.
      * injection Hn as -> ->. congruence.
      * destruct (IH i b code Hn Hc) as (j & b' & c' & Hj & Hnj & Hcj & Hmin & Hfm).
        exists (S j), b', c'. repeat split; try assumption; [lia|].
        intros [|k] bk ck Hk Hnk; cbn [nth_error] in Hnk.
        -- injection Hnk as <- <-. exact E0.
        -- apply (Hmin k bk ck); [lia|exact Hnk].
Qed.

Lemma first_match_none lat_f lon_f boxes :
  first_match boxes lat_f lon_f = None ->
  forall b code, In (b, code) boxes -> contains b lat_f lon_f = false.
Proof.
  induction boxes as [|[b0 c0] rest IH]; intros H b code Hin; [destruct Hin|].
  cbn [first_match] in H. destruct (contains b0 lat_f lon_f) eqn:E0; [discriminate|].
  destruct Hin as [Heq|Hin]; [injection Heq as <- <-; exact E0|].
  exact (IH H b code Hin).
Qed.

Lemma first_match_in lat_f lon_f boxes code :
  first_match boxes lat_f lon_f = Some code -> In code (map snd boxes).
Proof.
  induction boxes as [|[b0 c0] rest IH]; intros H; [discriminate|].
  cbn [first_match] in H. destruct (contains b0 lat_f lon_f).
  - injection H as ->. left. reflexivity.
  - right. exact (IH H).
Qed.

(** C5: a coordinate inside a box of the handler (so also one inside two or
    more) resolves to the code of the earliest predicate, in source order,
    that holds of it; and the answer of the crime endpoint to a request does
    not depend on what was sent or printed before, so every evaluation of a
    coordinate resolves the same code. *)
Theorem first_box_in_source_order_wins lat_f lon_f i b code :
  nth_error all_boxes i = Some (b, code) ->
  contains b lat_f lon_f = true ->
  (exists j b' code',
     (j <= i)%nat /\
     nth_error all_boxes j = Some (b', code') /\
     contains b' lat_f lon_f = true /\
     (forall k bk ck, (k < j)%nat -> nth_error all_boxes k = Some (bk, ck) ->
        contains bk lat_f lon_f = false) /\
     state_abbr lat_f lon_f = Some code') /\
  (forall float_of_string req w1 w2,
     fst (get_crime float_of_string req w1)
     = fst (get_crime float_of_string req w2)).
Proof.
  intros Hn Hc. split.
  - rewrite state_abbr_table. exact (first_match_earliest _ _ _ i b code Hn Hc).
  - intros fos req w1 w2. unfold get_crime.
    destruct (py_not _ || py_not _); [reflexivity|].
    cbn [bind Monad_M lift].
    destruct (py_float fos (args_get req "lat")); [|reflexivity].
    destruct (py_float fos (args_get req "lon")); [|reflexivity].
    cbn [print]. destruct (two_letters _); reflexivity.
Qed.

Lemma first_box_in_source_order_wins_witness :
  exists j b' code',
    (j <= 1)%nat /\
    nth_error all_boxes j = Some (b', code') /\
    contains b' 30.5%float (-85.0)%float = true /\
    (forall k bk ck, (k < j)%nat -> nth_error all_boxes k = Some (bk, ck) ->
       contains bk 30.5%float (-85.0)%float = false) /\
    state_abbr 30.5%float (-85.0)%float = Some code'.
Proof.
  apply (first_box_in_source_order_wins 30.5%float (-85.0)%float 1%nat
           (mkBox 30.0 35.0 (-88.0) (-80.0)) "GA").
  - reflexivity.
  - reflexivity.
Defined.

(** The coordinate of the example lies in the first two boxes of the chain,
    and resolves to the code of the first. *)
Example overlap_example :
  contains (mkBox 24.5 31.0 (-87.6) (-80.0)) 30.5%float (-85.0)%float = true /\
  contains (mkBox 30.0 35.0 (-88.0) (-80.0)) 30.5%float (-85.0)%float = true /\
  state_abbr 30.5%float (-85.0)%float = Some "FL".
Proof. repeat split. Qed.

(** The order of IEEE 754 numbers is transitive, NaN included (it is below
    and above nothing). *)
Lemma SFleb_trans (a b c : spec_float) :
  SFleb a b = true -> SFleb b c = true -> SFleb a c = true.
Proof.
  unfold SFleb, SFcompare.
  destruct a as [sa|sa| |sa ma ea], b as [sb|sb| |sb mb eb], c as [sc|sc| |sc mc ec];
    try destruct sa; try destruct sb; try destruct sc;
    try (intros; reflexivity); try (intros; discriminate).
  all: change (PosDef.Pos.compare_cont Eq ma mb) with (ma ?= mb)%positive;
    change (PosDef.Pos.compare_cont Eq mb mc) with (mb ?= mc)%positive;
    change (PosDef.Pos.compare_cont Eq ma mc) with (ma ?= mc)%positive.
  all: destruct (Z.compare_spec ea eb), (Z.compare_spec eb ec), (Z.compare_spec ea ec);
    try (intros; reflexivity); try (intros; discriminate); try lia.
  all: destruct (Pos.compare_spec ma mb), (Pos.compare_spec mb mc),
         (Pos.compare_spec ma mc);
    try (intros; reflexivity); try (intros; discriminate); try lia.
Qed.

Lemma leb_trans (a b c : float) :
  (a <=? b)%float = true -> (b <=? c)%float = true -> (a <=? c)%float = true.
Proof. rewrite !leb_spec. apply SFleb_trans. Qed.

(** An interval inside another one. *)
Lemma between_widen (a a' x b b' : float) :
  (a' <=? a)%float = true -> (b <=? b')%float = true ->
  between a x b = true -> between a' x b' = true.
Proof.
  unfold between. intros Ha Hb H. apply andb_true_iff in H as [H1 H2].
  apply andb_true_iff. split.
  - exact (leb_trans _ _ _ Ha H1).
  - exact (leb_trans _ _ _ H2 Hb).
Qed.

(** The catch-all box lies inside the first Arizona box of the chain. *)
Lemma phoenix_in_arizona lat_f lon_f :
  phoenix_area lat_f lon_f = true ->
  contains (mkBox 31.0 37.0 (-114.0) (-109.0)) lat_f lon_f = true.
Proof.
  unfold phoenix_area, contains. cbn [lat_lo lat_hi lon_lo lon_hi].
  intros H. apply andb_true_iff in H as [H1 H2]. apply andb_true_iff. split.
  - eapply between_widen; cycle 2; [exact H1|reflexivity|reflexivity].
  - eapply between_widen; cycle 2; [exact H2|reflexivity|reflexivity].
Qed.

(** C9: with or without the catch-all the classifier computes the same code:
    the catch-all box lies inside the Arizona box, the fifteenth predicate of
    the chain, so the catch-all never holds when the chain has matched
    nothing. *)
Theorem catch_all_never_assigns lat_f lon_f :
  state_abbr lat_f lon_f = state_chain lat_f lon_f /\
  nth_error chain_boxes 14 = Some (mkBox 31.0 37.0 (-114.0) (-109.0), "AZ") /\
  (phoenix_area lat_f lon_f = true ->
   contains (mkBox 31.0 37.0 (-114.0) (-109.0)) lat_f lon_f = true) /\
  (state_chain lat_f lon_f = None -> phoenix_area lat_f lon_f = false).
Proof.
  assert (Hnone : state_chain lat_f lon_f = None ->
                  phoenix_area lat_f lon_f = false).
  { intros H. rewrite state_chain_table in H.
    destruct (phoenix_area lat_f lon_f) eqn:P; [|reflexivity].
    apply phoenix_in_arizona in P.
    rewrite (first_match_none _ _ _ H (mkBox 31.0 37.0 (-114.0) (-109.0)) "AZ") in P;
      [discriminate|].
    apply (nth_error_In chain_boxes 14). reflexivity. }
  repeat split.
  - unfold state_abbr. destruct (state_chain lat_f lon_f) eqn:E; [reflexivity|].
    now rewrite (Hnone eq_refl).
  - apply phoenix_in_arizona.
  - exact Hnone.
Qed.

Lemma catch_all_never_assigns_witness :
  contains (mkBox 31.0 37.0 (-114.0) (-109.0)) 33.4%float (-112.0)%float = true.
Proof.
  apply (catch_all_never_assigns 33.4%float (-112.0)%float). reflexivity.
Defined.

(** ** The statistics table *)

Lemma lookup_in {V} k (d : list (string * V)) v :
  lookup k d = Some v -> In (k, v) d.
Proof.
  induction d as [|[k' v'] d IH]; [discriminate|]. cbn [lookup].
  destruct (String.eqb_spec k k') as [->|].
  - intros [= ->]. left. reflexivity.
  - intros H. right. exact (IH H).
Qed.

(** The codes the predicates assign all have an entry in the table. *)
Lemma codes_have_entries :
  forallb (fun code => match lookup code state_crime_rates with
                       | Some _ => true
                       | None => false
                       end) (map snd all_boxes) = true.
Proof. vm_compute. reflexivity. Qed.

(** The codes the predicates assign are two letters long. *)
Lemma codes_two_letters :
  forallb (fun code => two_letters (Some code)) (map snd all_boxes) = true.
Proof. vm_compute. reflexivity. Qed.

Lemma state_abbr_code lat_f lon_f code :
  state_abbr lat_f lon_f = Some code ->
  two_letters (Some code) = true /\
  exists entry, lookup code state_crime_rates = Some entry.
Proof.
  rewrite state_abbr_table. intros H. apply first_match_in in H. split.
  - exact (proj1 (forallb_forall _ _) codes_two_letters code H).
  - pose proof (proj1 (forallb_forall _ _) codes_have_entries code H) as E.
    cbv beta in E. destruct (lookup code state_crime_rates) as [entry|];
      [exists entry; reflexivity|discriminate].
Qed.

(** C10: a code the classifier gives to a coordinate is a key of the
    statistics table, so the lookup of the region branch returns the entry of
    the table whatever its default is: the inline default is never used. *)
Theorem resolved_code_in_table lat_f lon_f code :
  state_abbr lat_f lon_f = Some code ->
  exists entry,
    lookup code state_crime_rates = Some entry /\
    forall default,
      dict_get_opt state_crime_rates (state_abbr lat_f lon_f) default = entry.
Proof.
  intros H. destruct (state_abbr_code _ _ _ H) as [_ [entry E]].
  exists entry. split; [exact E|].
  intros default. rewrite H. unfold dict_get_opt, dict_get. now rewrite E.
Qed.

Lemma resolved_code_in_table_witness :
  exists entry,
    lookup "FL" state_crime_rates = Some entry /\
    forall default,
      dict_get_opt state_crime_rates (state_abbr 30.5%float (-85.0)%float) default
      = entry.
Proof.
  apply (resolved_code_in_table 30.5%float (-85.0)%float "FL"). reflexivity.
Defined.

(** ** The crime endpoint *)

(** The handler on a request whose two coordinates are given and read as
    numbers: the DEBUG line is printed and the answer depends on the code. *)
Lemma get_crime_run float_of_string req w lat lon lat_f lon_f :
  args_get req "lat" = Some lat -> lat <> "" ->
  args_get req "lon" = Some lon -> lon <> "" ->
  float_of_string lat = Some lat_f -> float_of_string lon = Some lon_f ->
  get_crime float_of_string req w =
  let state := state_abbr lat_f lon_f in
  (Ok (if two_letters state
       then respond (PyDict [("scope", PyStr "state"); ("source", PyStr "mock");
                             ("state", opt_str state);
                             ("stats", dict_get_opt state_crime_rates state
                                         default_crime_data)])
       else respond (PyDict [("scope", PyStr "demo"); ("source", PyStr "demo");
                             ("state", opt_str state); ("stats", demo_stats)])),
   mkWorld (sent w)
     (stdout w ++ ["DEBUG: Coordinates " ++ lat ++ "," ++ lon
                   ++ " mapped to state: " ++ format state])).
Proof.
  intros Hlat Hlat' Hlon Hlon' Flat Flon. unfold get_crime.
  rewrite Hlat, Hlon.
  rewrite (py_not_present _ lat eq_refl Hlat'), (py_not_present _ lon eq_refl Hlon').
  cbn [orb]. unfold py_float. rewrite Flat, Flon.
  cbn [bind Monad_M lift print format]. cbv zeta.
  destruct (two_letters (state_abbr lat_f lon_f)); reflexivity.
Qed.

(** No statistics of the region branch have a [year]: neither an entry of
    the table nor the inline default. *)
Lemma table_has_no_year :
  forallb (fun kv => match field "year" (snd kv) with
                     | Some _ => false
                     | None => true
                     end) state_crime_rates = true.
Proof. vm_compute. reflexivity. Qed.

Lemma region_stats_no_year state :
  field "year" (dict_get_opt state_crime_rates state default_crime_data) = None.
Proof.
  destruct state as [code|]; [|reflexivity].
  unfold dict_get_opt, dict_get.
  destruct (lookup code state_crime_rates) as [entry|] eqn:E; [|reflexivity].
  apply lookup_in in E.
  pose proof (proj1 (forallb_forall _ _) table_has_no_year _ E) as H.
  cbn [snd] in H. destruct (field "year" entry); [discriminate|reflexivity].
Qed.

(** C6: on coordinates that are given and read as numbers, a code that has
    an entry in the table is answered with scope [state] and exactly that
    entry as [stats]; no code is answered with scope [demo], a null [state]
    field and the demo statistics, which have a [year]; and no answer of
    scope [state], to any request, has a [year] in its [stats]. *)
Theorem crime_stats_by_scope float_of_string (req : Request) w
    lat lon lat_f lon_f :
  args_get req "lat" = Some lat -> lat <> "" ->
  args_get req "lon" = Some lon -> lon <> "" ->
  float_of_string lat = Some lat_f -> float_of_string lon = Some lon_f ->
  (forall code entry,
     state_abbr lat_f lon_f = Some code ->
     lookup code state_crime_rates = Some entry ->
     fst (get_crime float_of_string req w)
     = Ok (mkFlask (PyDict [("scope", PyStr "state"); ("source", PyStr "mock");
                            ("state", PyStr code); ("stats", entry)]) 200)) /\
  (state_abbr lat_f lon_f = None ->
     exists stats,
       fst (get_crime float_of_string req w)
       = Ok (mkFlask (PyDict [("scope", PyStr "demo"); ("source", PyStr "demo");
                              ("state", PyNone); ("stats", stats)]) 200) /\
       field "year" stats = Some (PyInt 2023)) /\
  (forall req' w' resp,
     fst (get_crime float_of_string req' w') = Ok resp ->
     field "scope" (body resp) = Some (PyStr "state") ->
     exists stats,
       field "stats" (body resp) = Some stats /\ field "year" stats = None).
Proof.
  intros Hlat Hlat' Hlon Hlon' Flat Flon.
  rewrite (get_crime_run _ req w lat lon lat_f lon_f Hlat Hlat' Hlon Hlon' Flat Flon).
  cbv zeta. cbn [fst]. repeat split.
  - intros code entry Hc He.
    destruct (state_abbr_code _ _ _ Hc) as [T _]. rewrite Hc, T.
    unfold dict_get_opt, dict_get. rewrite He. reflexivity.
  - intros ->. exists demo_stats. split; reflexivity.
  - intros req' w' resp. unfold get_crime.
    destruct (py_not _ || py_not _); [intros [= <-]; discriminate|].
    cbn [bind Monad_M lift].
    destruct (py_float float_of_string (args_get req' "lat")); [|discriminate].
    destruct (py_float float_of_string (args_get req' "lon")) as [g|]; [|discriminate].
    cbn [print]. destruct (two_letters _); intros [= <-]; [|discriminate].
    intros _. eexists. split; [reflexivity|]. apply region_stats_no_year.
Qed.

Lemma crime_stats_by_scope_witness :
  fst (get_crime sample_float_of_string [("lat", "30.5"); ("lon", "-85.0")]
         empty_world)
  = Ok (mkFlask (PyDict [("scope", PyStr "state"); ("source", PyStr "mock");
                         ("state", PyStr "FL");
                         ("stats", crime_stats 7 130 200 300 1000 180 337 1480)])
          200) /\
  exists stats,
    fst (get_crime sample_float_of_string [("lat", "10.0"); ("lon", "-85.0")]
           empty_world)
    = Ok (mkFlask (PyDict [("scope", PyStr "demo"); ("source", PyStr "demo");
                           ("state", PyNone); ("stats", stats)]) 200) /\
    field "year" stats = Some (PyInt 2023).
Proof.
  split.
  - apply (crime_stats_by_scope sample_float_of_string
             [("lat", "30.5"); ("lon", "-85.0")] empty_world
             "30.5" "-85.0" 30.5%float (-85.0)%float);
      try reflexivity; discriminate.
  - apply (crime_stats_by_scope sample_float_of_string
             [("lat", "10.0"); ("lon", "-85.0")] empty_world
             "10.0" "-85.0" 10.0%float (-85.0)%float);
      try reflexivity; discriminate.
Defined.



(** The opening and the closing tag both occur here, in the wrong order: the
    slice between them is empty, and so is the title. *)
Example reversed_title_tags :
  field "title" (amber_item "</title><title>") = Some (PyStr "").
Proof. reflexivity. Qed.

(** * Further properties of the handlers *)

(** ** Strings *)

Lemma append_nil_r s : s ++ "" = s.
Proof. induction s as [|c s IH]; [reflexivity|]. simpl. now rewrite IH. Qed.

Lemma append_assoc a b c : (a ++ b) ++ c = a ++ b ++ c.
Proof. induction a as [|x a IH]; [reflexivity|]. simpl. now rewrite IH. Qed.

Lemma length_append a b :
  String.length (a ++ b) = (String.length a + String.length b)%nat.
Proof. induction a as [|x a IH]; [reflexivity|]. simpl. now rewrite IH. Qed.

Lemma prefix_nil s : prefix "" s = true.
Proof. destruct s; reflexivity. Qed.

Lemma prefix_cons a s1 b s2 :
  prefix (String a s1) (String b s2) = if Ascii.eqb a b then prefix s1 s2 else false.
Proof.
  simpl. destruct (ascii_dec a b) as [->|n].
  - now rewrite Ascii.eqb_refl.
  - apply Ascii.eqb_neq in n. now rewrite n.
Qed.

Lemma find_from_miss sub c rest i :
  prefix sub (String c rest) = false ->
  find_from sub (String c rest) i = find_from sub rest (i + 1).
Proof. intros H. cbn [find_from]. now rewrite H. Qed.

Lemma find_from_hit sub s i : prefix sub s = true -> find_from sub s i = i.
Proof. intros H. destruct s; cbn [find_from]; now rewrite H. Qed.

(** A search for a tag passes over free text. *)
Lemma find_from_free sub' t rest : forall i,
  no_lt t = true ->
  find_from (String "<" sub') (t ++ rest) i
  = find_from (String "<" sub') rest (i + Z.of_nat (String.length t)).
Proof.
  induction t as [|c t IH]; intros i H.
  - simpl. now rewrite Z.add_0_r.
  - cbn [no_lt] in H. apply andb_true_iff in H as [Hc Ht].
    change (String c t ++ rest) with (String c (t ++ rest)).
    rewrite find_from_miss.
    + rewrite (IH _ Ht). f_equal. cbn [String.length]. lia.
    + rewrite prefix_cons, Ascii.eqb_sym.
      now destruct (Ascii.eqb c "<").
Qed.

(** The lowest index: what [find] returns, when it is not -1, is the
    position of the first occurrence. *)
Lemma find_from_lowest sub : forall s k i,
  find_from sub s k = i -> i <> -1 ->
  exists pre post,
    s = pre ++ sub ++ post /\
    i = k + Z.of_nat (String.length pre) /\
    forall pre' post', s = pre' ++ sub ++ post' ->
                       (String.length pre <= String.length pre')%nat.
Proof.
  induction s as [|c s IH]; intros k i H Hi; cbn [find_from] in H.
  - destruct (prefix sub "") eqn:P; [|congruence].
    destruct (prefix_occurs _ _ P) as [post E].
    exists "", post. repeat split; [exact E|simpl; lia|intros; simpl; lia].
  - destruct (prefix sub (String c s)) eqn:P.
    + destruct (prefix_occurs _ _ P) as [post E].
      exists "", post. repeat split; [exact E|simpl; lia|intros; simpl; lia].
    + destruct (IH _ _ H Hi) as (pre & post & -> & -> & Hmin).
      exists (String c pre), post. repeat split.
      * cbn [String.length]. lia.
      * intros pre' post' E. destruct pre' as [|c' pre'].
        -- simpl in E. rewrite E, prefix_app in P. discriminate.
        -- simpl in E. injection E as <- E.
           cbn [String.length]. apply le_n_S. exact (Hmin _ _ E).
Qed.

Lemma substring_skip a : forall n m s,
  substring (String.length a + n) m (a ++ s) = substring n m s.
Proof. induction a as [|c a IH]; intros n m s; [reflexivity|]. simpl. apply IH. Qed.

Lemma substring_take x : forall b, substring 0 (String.length x) (x ++ b) = x.
Proof.
  induction x as [|c x IH]; intros b; simpl.
  - destruct b; reflexivity.
  - now rewrite IH.
Qed.

(** A slice between two positions inside the string is the text between. *)
Lemma slice_middle a x b i j :
  i = Z.of_nat (String.length a) -> j = i + Z.of_nat (String.length x) ->
  slice (a ++ x ++ b) i j = x.
Proof.
  intros -> ->. unfold slice, clamp. rewrite !length_append.
  repeat match goal with
         | |- context [?u <? 0] => destruct (Z.ltb_spec u 0); [lia|]
         end.
  rewrite !Z.min_l by lia.
  replace (Z.to_nat (Z.of_nat (String.length a)))
    with (String.length a + 0)%nat by lia.
  replace (Z.to_nat (_ - _)) with (String.length x) by lia.
  rewrite substring_skip. apply substring_take.
Qed.

(** [lstrip] leaves nothing or a string that starts with no whitespace. *)
Lemma lstrip_head s c r : lstrip s = String c r -> is_space c = false.
Proof.
  induction s as [|a s IH]; [discriminate|]. cbn [lstrip].
  destruct (is_space a) eqn:E; [exact IH|]. intros [= <- _]. exact E.
Qed.

(** [rstrip] keeps the first character of what it returns. *)
Lemma rstrip_head s c r :
  rstrip s = String c r -> exists s', s = String c s'.
Proof.
  destruct s as [|a s]; [discriminate|]. cbn [rstrip].
  destruct (rstrip s); [destruct (is_space a); [discriminate|]|];
    intros [= <- _]; eexists; reflexivity.
Qed.

Lemma rstrip_last s : forall r c,
  rstrip s = r ++ String c "" -> is_space c = false.
Proof.
  induction s as [|a s IH]; intros r c H.
  - destruct r; discriminate.
  - cbn [rstrip] in H. destruct (rstrip s) as [|b t] eqn:E.
    + destruct (is_space a) eqn:Ea; [destruct r; discriminate|].
      destruct r as [|x r]; [now injection H as <-|].
      injection H as _ H. destruct r; discriminate.
    + destruct r as [|x r]; [discriminate|].
      injection H as _ H. exact (IH _ _ H).
Qed.

(** What [strip] returns is trimmed at both ends. *)
Lemma strip_trimmed s : trimmed (strip s).
Proof.
  unfold strip. split.
  - intros c r H. destruct (rstrip_head _ _ _ H) as [s' E].
    exact (lstrip_head _ _ _ E).
  - intros r c H. exact (rstrip_last _ _ _ H).
Qed.

(** ** Splitting the feed *)

Lemma split_go_skip sep a : forall cur s,
  split_go sep (String.length a) cur (a ++ s) = split_go sep 0 cur s.
Proof. induction a as [|c a IH]; intros cur s; [reflexivity|]. simpl. apply IH. Qed.

(** The step of [split_go] at a separator. *)
Lemma split_go_sep sep cur rest :
  sep <> "" ->
  split_go sep 0 cur (sep ++ rest) = cur :: split_go sep 0 "" rest.
Proof.
  destruct sep as [|c sep']; [contradiction|]. intros _.
  change (String c sep' ++ rest) with (String c (sep' ++ rest)) at 1.
  cbn [split_go].
  change (String c (sep' ++ rest)) with (String c sep' ++ rest).
  rewrite prefix_app. cbn [String.length Nat.pred].
  now rewrite split_go_skip.
Qed.

Lemma occurs_tail sub c s : ~ occurs sub (String c s) -> ~ occurs sub s.
Proof.
  intros H (pre & post & ->). apply H. exists (String c pre), post. reflexivity.
Qed.

Lemma not_occurs_prefix sub s : ~ occurs sub s -> prefix sub s = false.
Proof.
  intros H. destruct (prefix sub s) eqn:P; [|reflexivity].
  exfalso. apply H. destruct (prefix_occurs _ _ P) as [post E].
  exists "", post. exact E.
Qed.

(** A text without the separator stays in one piece. *)
Lemma split_go_absent sep : forall s cur,
  ~ occurs sep s -> split_go sep 0 cur s = [cur ++ s].
Proof.
  induction s as [|c s IH]; intros cur H.
  - simpl. now rewrite append_nil_r.
  - cbn [split_go]. rewrite (not_occurs_prefix _ _ H).
    rewrite (IH _ (occurs_tail _ _ _ H)), append_assoc. reflexivity.
Qed.

(** A prefix that fits in the first part of a concatenation is a prefix of
    that part. *)
Lemma prefix_fits sub : forall a b,
  prefix sub (a ++ b) = true -> (String.length sub <= String.length a)%nat ->
  prefix sub a = true.
Proof.
  induction sub as [|c sub IH]; intros a b H L; [apply prefix_nil|].
  destruct a as [|x a]; [simpl in L; lia|].
  change (String x a ++ b) with (String x (a ++ b)) in H.
  rewrite prefix_cons in *. destruct (Ascii.eqb c x); [|discriminate].
  apply (IH a b H). simpl in L. lia.
Qed.

(** Up to the first separator: when the separator does not occur in [pre]
    followed by all of the separator but its last character, the first
    piece is [pre] and the rest is split on its own. *)
Lemma split_go_first front z rest : forall pre cur,
  ~ occurs (front ++ String z "") (pre ++ front) ->
  split_go (front ++ String z "") 0 cur (pre ++ (front ++ String z "") ++ rest)
  = (cur ++ pre) :: split_go (front ++ String z "") 0 "" rest.
Proof.
  assert (Hne : front ++ String z "" <> "") by (destruct front; discriminate).
  induction pre as [|x pre IH]; intros cur H.
  - change ("" ++ (front ++ String z "") ++ rest)
      with ((front ++ String z "") ++ rest).
    now rewrite (split_go_sep _ _ _ Hne), append_nil_r.
  - change (String x pre ++ (front ++ String z "") ++ rest)
      with (String x (pre ++ (front ++ String z "") ++ rest)).
    cbn [split_go].
    destruct (prefix (front ++ String z "")
                (String x (pre ++ (front ++ String z "") ++ rest))) eqn:P.
    + exfalso. apply H.
      assert (P' : prefix (front ++ String z "") (String x pre ++ front) = true).
      { apply (prefix_fits _ _ (String z "" ++ rest)).
        - rewrite <- P. f_equal.
          change (String x (pre ++ (front ++ String z "") ++ rest))
            with (String x pre ++ (front ++ String z "") ++ rest).
          now rewrite !append_assoc.
        - rewrite !length_append. simpl. lia. }
      destruct (prefix_occurs _ _ P') as [post E]. exists "", post. exact E.
    + rewrite (IH _ (occurs_tail _ _ _ H)), append_assoc. reflexivity.
Qed.

(** ** The feed endpoint *)

Lemma get_amber_run upstream w :
  get_amber upstream w =
  let run := safe_get upstream "https://www.missingkids.org/feeds/amber.xml"
               None None w in
  (Ok match fst run with
      | Ok (Some r) =>
        respond (PyDict [("items", PyList (amber_items (text r)));
                         ("source", PyStr "NCMEC")])
      | _ => amber_unavailable
      end, snd run).
Proof.
  unfold get_amber. cbv zeta. cbn [bind Monad_M].
  pose proof (safe_get_truthy upstream
                "https://www.missingkids.org/feeds/amber.xml" None None w) as T.
  destruct (safe_get_never_raises upstream
              "https://www.missingkids.org/feeds/amber.xml" None None w)
    as [r Hr].
  destruct (safe_get upstream _ _ _ w) as [[r'|e] w']; [|discriminate].
  cbn [fst snd] in *. injection Hr as ->. rewrite (T r eq_refl).
  destruct r; reflexivity.
Qed.

(** X1: the feed endpoint never raises.  It sends one GET to the fixed feed
    address, without parameters or headers and with the 12-second timeout,
    and answers either 502 with an empty item list and the note
    [unavailable], when the fetch is unavailable, or 200 with the items
    extracted from the text of the response. *)
Theorem get_amber_outcome upstream w :
  let rq := mkGet "https://www.missingkids.org/feeds/amber.xml" None None 12 in
  let run := safe_get upstream "https://www.missingkids.org/feeds/amber.xml"
               None None w in
  exists resp,
    get_amber upstream w = (Ok resp, mkWorld (sent w ++ [rq]) (stdout w)) /\
    ((fst run = Ok None /\
      resp = mkFlask (PyDict [("items", PyList []); ("source", PyStr "NCMEC");
                              ("note", PyStr "unavailable")]) 502) \/
     (exists r, fst run = Ok (Some r) /\
        resp = mkFlask (PyDict [("items", PyList (amber_items (text r)));
                                ("source", PyStr "NCMEC")]) 200)).
Proof.
  intros rq run. rewrite get_amber_run. fold run. cbv zeta.
  unfold run at 2. rewrite safe_get_run. cbn [snd]. eexists. split; [reflexivity|].
  destruct (safe_get_never_raises upstream
              "https://www.missingkids.org/feeds/amber.xml" None None w)
    as [r Hr].
  fold run in Hr. rewrite Hr. destruct r as [r|].
  - right. exists r. split; reflexivity.
  - left. split; reflexivity.
Qed.

(** X2: a feed whose text has no item tag, the empty text among them, is
    answered 200 with an empty item list. *)
Theorem amber_feed_without_items upstream w r :
  fst (safe_get upstream "https://www.missingkids.org/feeds/amber.xml"
         None None w) = Ok (Some r) ->
  ~ occurs "<item>" (text r) ->
  fst (get_amber upstream w)
  = Ok (mkFlask (PyDict [("items", PyList []); ("source", PyStr "NCMEC")]) 200).
Proof.
  intros Hr Ht. rewrite get_amber_run. cbv zeta. cbn [fst]. rewrite Hr.
  unfold amber_items, split. rewrite (split_go_absent _ _ _ Ht). reflexivity.
Qed.

Lemma amber_feed_without_items_witness :
  fst (get_amber (always 200 "<rss><channel></channel></rss>"
                    (Raise JSONDecodeError)) empty_world)
  = Ok (mkFlask (PyDict [("items", PyList []); ("source", PyStr "NCMEC")]) 200).
Proof.
  apply (amber_feed_without_items _ _
           (mkResponse 200 "<rss><channel></channel></rss>"
              (Raise JSONDecodeError))).
  - reflexivity.
  - apply find_spec. reflexivity.
Defined.

Lemma split_item_first pre rest :
  ~ occurs "<item>" (pre ++ "<item") ->
  split_go "<item>" 0 "" (pre ++ "<item>" ++ rest)
  = pre :: split_go "<item>" 0 "" rest.
Proof. exact (split_go_first "<item" ">" rest pre ""). Qed.

(** X3: the items come in the order of the feed, one per item tag.  When the
    tag does not occur before its first occurrence (nor astride it), what
    precedes it is dropped; a chunk that runs to the end of the text gives
    the last item, and a chunk that runs to the next item tag gives one item
    followed by those of the rest of the feed. *)
Theorem amber_items_in_feed_order pre :
  ~ occurs "<item>" (pre ++ "<item") ->
  (forall chunk,
     ~ occurs "<item>" chunk ->
     amber_items (pre ++ "<item>" ++ chunk) = [amber_item chunk]) /\
  (forall chunk rest,
     ~ occurs "<item>" (chunk ++ "<item") ->
     amber_items (pre ++ "<item>" ++ chunk ++ "<item>" ++ rest)
     = amber_item chunk :: amber_items ("<item>" ++ rest)).
Proof.
  intros Hpre. unfold amber_items, split. split.
  - intros chunk Hc.
    rewrite (split_item_first pre chunk Hpre).
    rewrite (split_go_absent _ _ _ Hc). reflexivity.
  - intros chunk rest Hc.
    rewrite (split_item_first pre (chunk ++ "<item>" ++ rest) Hpre).
    rewrite (split_item_first chunk rest Hc).
    rewrite (split_go_sep "<item>" "" rest) by discriminate.
    reflexivity.
Qed.

Lemma amber_items_in_feed_order_witness :
  amber_items ("<rss>" ++ "<item>" ++ "<link>a</link>" ++ "<item>" ++ "<link>b</link>")
  = amber_item "<link>a</link>" :: amber_items ("<item>" ++ "<link>b</link>").
Proof.
  apply (amber_items_in_feed_order "<rss>").
  - apply find_spec. reflexivity.
  - apply find_spec. reflexivity.
Defined.

Lemma trimmed_literal s : strip s = s -> trimmed s.
Proof. intros <-. apply strip_trimmed. Qed.

(** X4: whatever the chunk, the item extracted from it has exactly the three
    fields [title], [link] and [description], in that order, each a string
    that neither starts nor ends with whitespace. *)
Theorem amber_item_fields_trimmed chunk :
  exists title link description,
    amber_item chunk = PyDict [("title", PyStr title); ("link", PyStr link);
                               ("description", PyStr description)] /\
    trimmed title /\ trimmed link /\ trimmed description.
Proof.
  unfold amber_item. cbv zeta. do 3 eexists. split; [reflexivity|].
  split; [|split];
    match goal with
    | |- trimmed (if ?b then _ else _) =>
      destruct b; [apply strip_trimmed|apply trimmed_literal; reflexivity]
    end.
Qed.

(** *** A well-formed item *)

Lemma slice_at chunk a x b i j :
  chunk = a ++ x ++ b ->
  i = Z.of_nat (String.length a) -> j = i + Z.of_nat (String.length x) ->
  slice chunk i j = x.
Proof. intros ->. apply slice_middle. Qed.

Lemma of_nat_found n : negb (Z.of_nat n =? -1) = true.
Proof. destruct (Z.eqb_spec (Z.of_nat n) (-1)); [lia|reflexivity]. Qed.

(** Walks a search over free text and over the characters of a tag up to
    the position where the tag searched for starts. *)
Ltac find_walk :=
  unfold find, item_chunk;
  repeat first
    [ rewrite find_from_free by assumption
    | progress cbn [append]
    | rewrite find_from_miss by (rewrite ?prefix_cons; reflexivity) ];
  rewrite find_from_hit by (rewrite ?prefix_cons; simpl; apply prefix_nil);
  lia.

Section WellFormedItem.

Variables p0 t p1 l p2 d post : string.
Hypothesis Hp0 : no_lt p0 = true.
Hypothesis Ht : no_lt t = true.
Hypothesis Hp1 : no_lt p1 = true.
Hypothesis Hl : no_lt l = true.
Hypothesis Hp2 : no_lt p2 = true.
Hypothesis Hd : no_lt d = true.

Lemma title_start_at : find (item_chunk p0 t p1 l p2 d post) "<title>" = Z.of_nat (String.length p0).
Proof. find_walk. Qed.

Lemma title_end_at : find (item_chunk p0 t p1 l p2 d post) "</title>" = Z.of_nat (String.length p0 + 7 + String.length t).
Proof. find_walk. Qed.

Lemma link_start_at :
  find (item_chunk p0 t p1 l p2 d post) "<link>" = Z.of_nat (String.length p0 + 7 + String.length t + 8 + String.length p1).
Proof. find_walk. Qed.

Lemma link_end_at :
  find (item_chunk p0 t p1 l p2 d post) "</link>" = Z.of_nat (String.length p0 + 7 + String.length t + 8 + String.length p1 + 6 + String.length l).
Proof. find_walk. Qed.

Lemma desc_start_at :
  find (item_chunk p0 t p1 l p2 d post) "<description>"
  = Z.of_nat (String.length p0 + 7 + String.length t + 8 + String.length p1 + 6 + String.length l + 7 + String.length p2).
Proof. find_walk. Qed.

Lemma desc_end_at :
  find (item_chunk p0 t p1 l p2 d post) "</description>"
  = Z.of_nat (String.length p0 + 7 + String.length t + 8 + String.length p1 + 6 + String.length l + 7 + String.length p2 + 13
              + String.length d).
Proof. find_walk. Qed.

Lemma title_slice :
  slice (item_chunk p0 t p1 l p2 d post) (Z.of_nat (String.length p0) + 7) (Z.of_nat (String.length p0 + 7 + String.length t)) = t.
Proof.
  apply (slice_at _ (p0 ++ "<title>") t
           ("</title>" ++ p1 ++ "<link>" ++ l ++ "</link>" ++ p2
            ++ "<description>" ++ d ++ "</description>" ++ post)).
  - unfold item_chunk. now rewrite !append_assoc.
  - rewrite length_append. simpl. lia.
  - lia.
Qed.

Lemma link_slice :
  slice (item_chunk p0 t p1 l p2 d post) (Z.of_nat (String.length p0 + 7 + String.length t + 8 + String.length p1) + 6)
    (Z.of_nat (String.length p0 + 7 + String.length t + 8 + String.length p1 + 6 + String.length l)) = l.
Proof.
  apply (slice_at _ (p0 ++ "<title>" ++ t ++ "</title>" ++ p1 ++ "<link>") l
           ("</link>" ++ p2 ++ "<description>" ++ d ++ "</description>" ++ post)).
  - unfold item_chunk. now rewrite !append_assoc.
  - rewrite !length_append. simpl. lia.
  - lia.
Qed.

Lemma desc_slice :
  slice (item_chunk p0 t p1 l p2 d post)
    (Z.of_nat (String.length p0 + 7 + String.length t + 8 + String.length p1 + 6 + String.length l + 7 + String.length p2) + 13)
    (Z.of_nat (String.length p0 + 7 + String.length t + 8 + String.length p1 + 6 + String.length l + 7 + String.length p2 + 13
               + String.length d)) = d.
Proof.
  apply (slice_at _ (p0 ++ "<title>" ++ t ++ "</title>" ++ p1 ++ "<link>" ++ l
                     ++ "</link>" ++ p2 ++ "<description>") d
           ("</description>" ++ post)).
  - unfold item_chunk. now rewrite !append_assoc.
  - rewrite !length_append. simpl. lia.
  - lia.
Qed.

(** X5: from a well-formed item, with free text (no [<]) before, between and
    inside the three tag pairs and anything after the last closing tag, the
    extraction returns the three enclosed texts, stripped. *)
Theorem amber_item_well_formed :
  amber_item (item_chunk p0 t p1 l p2 d post)
  = PyDict [("title", PyStr (strip t)); ("link", PyStr (strip l));
            ("description", PyStr (strip d))].
Proof.
  unfold amber_item. cbv zeta.
  rewrite title_start_at, title_end_at, link_start_at, link_end_at,
    desc_start_at, desc_end_at.
  rewrite !of_nat_found. cbn [andb].
  now rewrite title_slice, link_slice, desc_slice.
Qed.

End WellFormedItem.

Lemma amber_item_well_formed_witness :
  amber_item (item_chunk " " " Missing: Jane Doe " "  " "http://x" "" "5yo female"
                "</item>")
  = PyDict [("title", PyStr "Missing: Jane Doe"); ("link", PyStr "http://x");
            ("description", PyStr "5yo female")].
Proof.
  apply (amber_item_well_formed " " " Missing: Jane Doe " "  " "http://x" ""
           "5yo female" "</item>"); reflexivity.
Defined.

(** ** The codes of the classifier *)

Lemma contains_inside b b' lat_f lon_f :
  box_inside b b' = true ->
  contains b lat_f lon_f = true -> contains b' lat_f lon_f = true.
Proof.
  unfold box_inside, contains. intros H C.
  apply andb_true_iff in H as [H H4]. apply andb_true_iff in H as [H H3].
  apply andb_true_iff in H as [H1 H2]. apply andb_true_iff in C as [C1 C2].
  apply andb_true_iff. split.
  - exact (between_widen _ _ _ _ _ H1 H2 C1).
  - exact (between_widen _ _ _ _ _ H3 H4 C2).
Qed.

(** A box inside a box tested before it never decides the answer. *)
Lemma first_match_live lat_f lon_f boxes : forall earlier code,
  (forall e, In e earlier -> contains e lat_f lon_f = false) ->
  first_match boxes lat_f lon_f = Some code ->
  In code (live_codes earlier boxes).
Proof.
  induction boxes as [|[b c] rest IH]; intros earlier code He H; [discriminate|].
  cbn [first_match live_codes] in *. apply in_or_app.
  destruct (contains b lat_f lon_f) eqn:C.
  - injection H as <-. left.
    destruct (existsb (box_inside b) earlier) eqn:E; [|left; reflexivity].
    apply existsb_exists in E as (e & Hin & Hb).
    specialize (He e Hin). rewrite (contains_inside _ _ _ _ Hb C) in He.
    discriminate He.
  - right. apply (IH (earlier ++ [b])%list code); [|exact H].
    intros e Hin. apply in_app_or in Hin as [Hin|[<-|[]]];
      [exact (He e Hin)|exact C].
Qed.

Lemma in_existsb_eqb code codes :
  existsb (String.eqb code) codes = true -> In code codes.
Proof.
  intros H. apply existsb_exists in H as (c & Hin & E).
  apply String.eqb_eq in E. now subst.
Qed.

Lemma live_codes_resolved :
  forallb (fun code => existsb (String.eqb code) resolved_codes)
    (live_codes [] all_boxes) = true.
Proof. vm_compute. reflexivity. Qed.

(** Only the codes of [resolved_codes] are ever resolved. *)
Lemma state_abbr_resolved lat_f lon_f code :
  state_abbr lat_f lon_f = Some code -> In code resolved_codes.
Proof.
  rewrite state_abbr_table. intros H.
  apply (first_match_live _ _ _ []) in H; [|intros e []].
  apply in_existsb_eqb.
  exact (proj1 (forallb_forall _ _) live_codes_resolved code H).
Qed.

Lemma code_samples_resolve :
  forallb (fun s => match state_abbr (fst (snd s)) (snd (snd s)) with
                    | Some code => String.eqb code (fst s)
                    | None => false
                    end) code_samples = true.
Proof. vm_compute. reflexivity. Qed.

(** X6: the classifier resolves exactly 38 codes.  Each code of the list is
    resolved for some coordinate and no other code is; so the predicates of
    SC, CT, NJ, MS, AL, ND and WY, which lie inside boxes tested before
    them, are never taken, and these seven entries of the statistics table,
    with the five entries that have no box (MI, MO, ID, NH, RI), are never
    served. *)
Theorem classifier_resolves_exactly code :
  ((exists lat_f lon_f, state_abbr lat_f lon_f = Some code)
   <-> In code ["FL"; "GA"; "NC"; "VA"; "MD"; "PA"; "NY"; "MA"; "VT"; "ME";
                "DE"; "AZ"; "NM"; "TX"; "AR"; "LA"; "OH"; "WV"; "KY"; "TN";
                "IN"; "IL"; "IA"; "WI"; "MN"; "NE"; "KS"; "OK"; "NV"; "CA";
                "WA"; "OR"; "CO"; "UT"; "MT"; "SD"; "AK"; "HI"]) /\
  (In code ["MI"; "NJ"; "MO"; "SC"; "AL"; "CT"; "MS"; "ID"; "NH"; "RI"; "ND";
            "WY"] ->
   (exists entry, lookup code state_crime_rates = Some entry) /\
   forall lat_f lon_f, state_abbr lat_f lon_f <> Some code).
Proof.
  split; [split|].
  - intros (lat_f & lon_f & H). exact (state_abbr_resolved _ _ _ H).
  - intros H. change (In code (map fst code_samples)) in H.
    apply in_map_iff in H as ([c [la lo]] & <- & Hin).
    pose proof (proj1 (forallb_forall _ _) code_samples_resolve _ Hin) as E.
    cbn [fst snd] in E. exists la, lo.
    destruct (state_abbr la lo) as [c'|]; [|discriminate].
    apply String.eqb_eq in E. now subst.
  - intros H. split.
    + repeat (destruct H as [<-|H]; [eexists; reflexivity|]). destruct H.
    + intros lat_f lon_f E. apply state_abbr_resolved in E.
      repeat (destruct H as [<-|H];
              [revert E; clear; intros E;
               repeat (destruct E as [E|E]; [discriminate E|]); destruct E|]).
      destruct H.
Qed.

Lemma classifier_resolves_exactly_witness :
  (exists entry, lookup "AL" state_crime_rates = Some entry) /\
  forall lat_f lon_f, state_abbr lat_f lon_f <> Some "AL".
Proof.
  apply (classifier_resolves_exactly "AL").
  do 4 right. left. reflexivity.
Defined.

Lemma first_match_box lat_f lon_f boxes code :
  first_match boxes lat_f lon_f = Some code ->
  exists b, In (b, code) boxes /\ contains b lat_f lon_f = true.
Proof.
  induction boxes as [|[b c] rest IH]; intros H; [discriminate|].
  cbn [first_match] in H. destruct (contains b lat_f lon_f) eqn:C.
  - injection H as <-. exists b. split; [left; reflexivity|exact C].
  - destruct (IH H) as (b' & Hin & Hc). exists b'. split; [right|]; assumption.
Qed.

Lemma boxes_inside_hull :
  forallb (fun bc => box_inside (fst bc) (mkBox 18.0 49.0 (-162.0) (-66.0)))
    all_boxes = true.
Proof. vm_compute. reflexivity. Qed.

(** A resolved coordinate lies between 18 and 49 degrees of latitude and
    between -162 and -66 degrees of longitude. *)
Lemma resolved_inside_hull lat_f lon_f code :
  state_abbr lat_f lon_f = Some code ->
  contains (mkBox 18.0 49.0 (-162.0) (-66.0)) lat_f lon_f = true.
Proof.
  rewrite state_abbr_table. intros H.
  apply first_match_box in H as (b & Hin & Hc).
  pose proof (proj1 (forallb_forall _ _) boxes_inside_hull _ Hin) as Hb.
  exact (contains_inside _ _ _ _ Hb Hc).
Qed.

(** X7: outside the hull of the boxes nothing is resolved.  A request whose
    coordinates are read as numbers, one of which is not within 18..49
    degrees of latitude and -162..-66 degrees of longitude (a NaN or an
    infinity is not), is answered 200 with the demo record and a null
    [state]. *)
Theorem crime_outside_hull_is_demo float_of_string (req : Request) w
    lat lon lat_f lon_f :
  args_get req "lat" = Some lat -> lat <> "" ->
  args_get req "lon" = Some lon -> lon <> "" ->
  float_of_string lat = Some lat_f -> float_of_string lon = Some lon_f ->
  between 18.0 lat_f 49.0 && between (-162.0) lon_f (-66.0) = false ->
  state_abbr lat_f lon_f = None /\
  fst (get_crime float_of_string req w)
  = Ok (mkFlask (PyDict [("scope", PyStr "demo"); ("source", PyStr "demo");
                         ("state", PyNone); ("stats", demo_stats)]) 200).
Proof.
  intros Hlat Hlat' Hlon Hlon' Flat Flon Hout.
  assert (Hnone : state_abbr lat_f lon_f = None).
  { destruct (state_abbr lat_f lon_f) as [code|] eqn:E; [|reflexivity].
    apply resolved_inside_hull in E. unfold contains in E.
    cbn [lat_lo lat_hi lon_lo lon_hi] in E. congruence. }
  split; [exact Hnone|].
  rewrite (get_crime_run _ req w lat lon lat_f lon_f Hlat Hlat' Hlon Hlon' Flat Flon).
  cbv zeta. rewrite Hnone. reflexivity.
Qed.

Lemma crime_outside_hull_is_demo_witness :
  fst (get_crime sample_float_of_string' [("lat", "nan"); ("lon", "-85.0")]
         empty_world)
  = Ok (mkFlask (PyDict [("scope", PyStr "demo"); ("source", PyStr "demo");
                         ("state", PyNone); ("stats", demo_stats)]) 200) /\
  state_abbr 60.0%float (-85.0)%float = None.
Proof.
  split.
  - apply (crime_outside_hull_is_demo sample_float_of_string'
             [("lat", "nan"); ("lon", "-85.0")] empty_world
             "nan" "-85.0" nan (-85.0)%float);
      try reflexivity; discriminate.
  - apply (crime_outside_hull_is_demo sample_float_of_string'
             [("lat", "60.0"); ("lon", "-85.0")] empty_world
             "60.0" "-85.0" 60.0%float (-85.0)%float);
      try reflexivity; discriminate.
Defined.

(** ** The answers of the crime endpoint *)

Lemma resolved_sums_consistent :
  forallb (fun code => sums_consistent
                         (dict_get state_crime_rates code default_crime_data))
    resolved_codes = true.
Proof. vm_compute. reflexivity. Qed.

(** The totals of the AL entry are not the sums of its parts, but the entry
    is never served. *)
Example alabama_sums :
  sums_consistent (dict_get state_crime_rates "AL" default_crime_data) = false.
Proof. reflexivity. Qed.

(** X8: in every answer of scope [state], the statistics are a record whose
    [violent_crime] is the sum of [homicide], [robbery] and
    [aggravated_assault], and whose [property_crime] is the sum of
    [burglary], [larceny] and [motor_vehicle_theft]. *)
Theorem state_stats_totals_add_up float_of_string (req : Request) w resp :
  fst (get_crime float_of_string req w) = Ok resp ->
  field "scope" (body resp) = Some (PyStr "state") ->
  exists stats,
    field "stats" (body resp) = Some stats /\ sums_consistent stats = true.
Proof.
  unfold get_crime.
  destruct (py_not _ || py_not _); [intros [= <-]; discriminate|].
  cbn [bind Monad_M lift].
  destruct (py_float float_of_string (args_get req "lat")) as [lat_f|]; [|discriminate].
  destruct (py_float float_of_string (args_get req "lon")) as [lon_f|]; [|discriminate].
  cbn [print]. destruct (two_letters _) eqn:T; intros [= <-]; [|discriminate].
  intros _. eexists. split; [reflexivity|].
  destruct (state_abbr lat_f lon_f) as [code|] eqn:E; [|discriminate].
  apply state_abbr_resolved in E. cbn [dict_get_opt].
  exact (proj1 (forallb_forall _ _) resolved_sums_consistent code E).
Qed.

Lemma state_stats_totals_add_up_witness :
  exists stats,
    field "stats"
      (body (mkFlask (PyDict [("scope", PyStr "state"); ("source", PyStr "mock");
                              ("state", PyStr "FL");
                              ("stats", crime_stats 7 130 200 300 1000 180 337 1480)])
               200)) = Some stats /\
    sums_consistent stats = true.
Proof.
  apply (state_stats_totals_add_up sample_float_of_string
           [("lat", "30.5"); ("lon", "-85.0")] empty_world); reflexivity.
Defined.


(** ** Coordinates given with an empty value *)

(** X10: a coordinate given with an empty value ([?lat=&lon=5]) counts as
    missing: the three endpoints answer 400 with the error body, send
    nothing and print nothing. *)
Theorem empty_coordinate_400 upstream float_of_string (req : Request) w :
  args_get req "lat" = Some "" \/ args_get req "lon" = Some "" ->
  let bad_request :=
    mkFlask (PyDict [("error", PyStr "lat and lon are required")]) 400 in
  get_weather upstream req w = (Ok bad_request, w) /\
  get_alerts upstream req w = (Ok bad_request, w) /\
  get_crime float_of_string req w = (Ok bad_request, w).
Proof.
  intros H bad.
  assert (E : py_not (args_get req "lat") || py_not (args_get req "lon") = true).
  { destruct H as [-> | ->]; [reflexivity|apply orb_true_r]. }
  unfold get_weather, get_alerts, get_crime. rewrite E. repeat split.
Qed.

Lemma empty_coordinate_400_witness :
  get_crime sample_float_of_string [("lat", ""); ("lon", "-85.0")] empty_world
  = (Ok (mkFlask (PyDict [("error", PyStr "lat and lon are required")]) 400),
     empty_world).
Proof.
  apply (empty_coordinate_400 unreachable sample_float_of_string
           [("lat", ""); ("lon", "-85.0")] empty_world).
  left. reflexivity.
Defined.

(** ** What the weather and alerts endpoints send and let escape *)

(** X11: with both coordinates given, the weather endpoint sends one GET
    with the coordinates as they were given and the five fields asked for,
    and the alerts endpoint sends one GET with the point [lat,lon] and the
    geo-JSON Accept header, both with the 12-second timeout; neither
    prints.  This holds whatever the upstream answers, also when the
    weather handler raises. *)
Theorem outbound_requests upstream (req : Request) w lat lon :
  args_get req "lat" = Some lat -> lat <> "" ->
  args_get req "lon" = Some lon -> lon <> "" ->
  snd (get_weather upstream req w)
  = mkWorld
      (sent w ++
       [mkGet "https://api.open-meteo.com/v1/forecast"
          (Some [("latitude", PyStr lat); ("longitude", PyStr lon);
                 ("current",
                  PyStr "temperature_2m,precipitation,wind_speed_10m,relative_humidity_2m,weather_code")])
          None 12])
      (stdout w) /\
  snd (get_alerts upstream req w)
  = mkWorld
      (sent w ++
       [mkGet "https://api.weather.gov/alerts/active"
          (Some [("point", PyStr (lat ++ "," ++ lon))])
          (Some [("Accept", "application/geo+json")]) 12])
      (stdout w).
Proof.
  intros Hlat Hlat' Hlon Hlon'. split.
  - rewrite (get_weather_run upstream req w lat lon Hlat Hlat' Hlon Hlon').
    cbv zeta. rewrite safe_get_run. cbn [fst snd].
    destruct (upstream _) as [r|e]; [|reflexivity].
    destruct (is_http_error (status_code r)); [reflexivity|].
    destruct (json r) as [[]|]; reflexivity.
  - rewrite (get_alerts_run upstream req w lat lon Hlat Hlat' Hlon Hlon').
    cbv zeta. rewrite safe_get_run. cbn [fst snd].
    destruct (upstream _) as [r|e]; [|reflexivity].
    destruct (is_http_error (status_code r)); reflexivity.
Qed.

Lemma outbound_requests_witness :
  snd (get_alerts unreachable [("lat", "30.5"); ("lon", "-85.0")] empty_world)
  = mkWorld
      [mkGet "https://api.weather.gov/alerts/active"
         (Some [("point", PyStr "30.5,-85.0")])
         (Some [("Accept", "application/geo+json")]) 12]
      [].
Proof.
  apply (outbound_requests unreachable [("lat", "30.5"); ("lon", "-85.0")]
           empty_world "30.5" "-85.0"); try reflexivity; discriminate.
Defined.

(** X12: the weather endpoint does not guard the decoding of a fetched
    body.  When the fetch succeeds and the body is not JSON, the decoding
    error escapes the handler; when the body is JSON but not an object,
    [AttributeError] does. *)
Theorem weather_lets_decoding_errors_escape upstream (req : Request) w
    lat lon r :
  args_get req "lat" = Some lat -> lat <> "" ->
  args_get req "lon" = Some lon -> lon <> "" ->
  fst (safe_get upstream "https://api.open-meteo.com/v1/forecast"
         (Some (weather_params (Some lat) (Some lon))) None w) = Ok (Some r) ->
  (forall e, json r = Raise e -> fst (get_weather upstream req w) = Raise e) /\
  (forall o, json r = Ok o -> (forall d, o <> PyDict d) ->
             fst (get_weather upstream req w) = Raise AttributeError).
Proof.
  intros Hlat Hlat' Hlon Hlon' Hr.
  rewrite (get_weather_run upstream req w lat lon Hlat Hlat' Hlon Hlon').
  cbv zeta. rewrite Hr. split.
  - intros e ->. reflexivity.
  - intros o -> Ho. destruct o; try reflexivity. now destruct (Ho d).
Qed.

Lemma weather_lets_decoding_errors_escape_witness :
  fst (get_weather (always 200 "<html>" (Raise JSONDecodeError))
         [("lat", "30.5"); ("lon", "-85.0")] empty_world)
  = Raise JSONDecodeError /\
  fst (get_weather (always 200 "[]" (Ok (PyList [])))
         [("lat", "30.5"); ("lon", "-85.0")] empty_world)
  = Raise AttributeError.
Proof.
  split.
  - apply (weather_lets_decoding_errors_escape
             (always 200 "<html>" (Raise JSONDecodeError))
             [("lat", "30.5"); ("lon", "-85.0")] empty_world "30.5" "-85.0"
             (mkResponse 200 "<html>" (Raise JSONDecodeError)));
      try reflexivity; discriminate.
  - pose proof (weather_lets_decoding_errors_escape
             (always 200 "[]" (Ok (PyList [])))
             [("lat", "30.5"); ("lon", "-85.0")] empty_world "30.5" "-85.0"
             (mkResponse 200 "[]" (Ok (PyList []))) eq_refl
             ltac:(discriminate) eq_refl ltac:(discriminate) eq_refl)
      as [_ H].
    apply (H (PyList []) eq_refl).
    discriminate.
Defined.

(** ** The alerts the endpoint returns *)

(** The projection succeeds exactly on the features that have parts, and
    fails with [AttributeError] on all others. *)
Lemma project_feature_spec f :
  project_feature f =
  match feature_parts f with
  | Some (d, p) => Ok (alert_record d p)
  | None => Raise AttributeError
  end.
Proof.
  destruct f as [| | | | | |d]; try reflexivity.
  unfold project_feature, feature_parts. cbn [py_get bind Monad_result].
  change (dict_get d "properties" (PyDict []))
    with (match lookup "properties" d with
          | Some v => v
          | None => PyDict []
          end).
  destruct (lookup "properties" d) as [[]|]; reflexivity.
Qed.

Lemma project_all features :
  (forall f, In f features -> feature_parts f <> None) ->
  exists alerts,
    Forall2 (fun f a => project_feature f = Ok a) features alerts /\
    Forall2 (fun f a => exists d p, feature_parts f = Some (d, p) /\
                                    a = alert_record d p) features alerts.
Proof.
  induction features as [|f rest IH]; intros H.
  - exists []. split; constructor.
  - destruct IH as (alerts & H1 & H2); [intros g Hg; apply H; now right|].
    pose proof (project_feature_spec f) as E.
    destruct (feature_parts f) as [[d p]|] eqn:P;
      [|destruct (H f (or_introl eq_refl) P)].
    exists (alert_record d p :: alerts). split; constructor; try assumption.
    exists d, p. split; [exact P|reflexivity].
Qed.

(** X13: when the fetched body is an object whose [features] are a list of
    objects, each with no [properties] or with an object as [properties],
    the answer has one alert per feature, in the order of the features;
    each alert has the nine keys, with the entry of the feature ([id]) or of
    its properties (the other eight), and null where there is no entry. *)
Theorem alerts_one_per_feature upstream (req : Request) w lat lon r data
    features :
  args_get req "lat" = Some lat -> lat <> "" ->
  args_get req "lon" = Some lon -> lon <> "" ->
  fst (safe_get upstream "https://api.weather.gov/alerts/active"
         (Some [("point", PyStr (lat ++ "," ++ lon))])
         (Some [("Accept", "application/geo+json")]) w) = Ok (Some r) ->
  json r = Ok (PyDict data) ->
  lookup "features" data = Some (PyList features) ->
  (forall f, In f features -> feature_parts f <> None) ->
  exists alerts,
    fst (get_alerts upstream req w)
    = Ok (mkFlask (PyDict [("alerts", PyList alerts); ("source", PyStr "NWS")])
            200) /\
    Forall2 (fun f a => exists d p, feature_parts f = Some (d, p) /\
                                    a = alert_record d p) features alerts.
Proof.
  intros Hlat Hlat' Hlon Hlon' Hr Hj Hf Hall.
  destruct (project_all features Hall) as (alerts & H1 & H2).
  exists alerts. split; [|exact H2].
  rewrite (get_alerts_run upstream req w lat lon Hlat Hlat' Hlon Hlon').
  cbv zeta. rewrite Hr. cbn [fst]. unfold parse_alerts.
  cbn [resp_json bind Monad_result]. rewrite Hj.
  cbn [py_get]. unfold dict_get. rewrite Hf. cbn [py_iter].
  rewrite (project_loop_ok features [] alerts H1). reflexivity.
Qed.

Lemma alerts_one_per_feature_witness :
  exists alerts,
    fst (get_alerts
           (always 200 ""
              (Ok (PyDict [("features",
                            PyList [PyDict [("id", PyStr "a1");
                                            ("properties",
                                             PyDict [("event", PyStr "Flood")])];
                                    PyDict []])])))
           [("lat", "30.5"); ("lon", "-85.0")] empty_world)
    = Ok (mkFlask (PyDict [("alerts", PyList alerts); ("source", PyStr "NWS")])
            200) /\
    Forall2 (fun f a => exists d p, feature_parts f = Some (d, p) /\
                                    a = alert_record d p)
      [PyDict [("id", PyStr "a1");
               ("properties", PyDict [("event", PyStr "Flood")])];
       PyDict []] alerts.
Proof.
  apply (alerts_one_per_feature _ [("lat", "30.5"); ("lon", "-85.0")] empty_world
           "30.5" "-85.0"
           (mkResponse 200 ""
              (Ok (PyDict [("features",
                            PyList [PyDict [("id", PyStr "a1");
                                            ("properties",
                                             PyDict [("event", PyStr "Flood")])];
                                    PyDict []])])))
           [("features",
             PyList [PyDict [("id", PyStr "a1");
                             ("properties", PyDict [("event", PyStr "Flood")])];
                     PyDict []])]);
    try reflexivity; try discriminate.
  intros f [<-|[<-|[]]]; discriminate.
Defined.

(** X14: a fetched body that cannot be used gives an empty list of alerts
    and status 200: a body that is not JSON, JSON that is not an object, an
    object without [features], and [features] that are null, a boolean or a
    number. *)
Theorem alerts_unusable_body upstream (req : Request) w lat lon r :
  args_get req "lat" = Some lat -> lat <> "" ->
  args_get req "lon" = Some lon -> lon <> "" ->
  fst (safe_get upstream "https://api.weather.gov/alerts/active"
         (Some [("point", PyStr (lat ++ "," ++ lon))])
         (Some [("Accept", "application/geo+json")]) w) = Ok (Some r) ->
  (exists e, json r = Raise e) \/
  (exists o, json r = Ok o /\ forall d, o <> PyDict d) \/
  (exists d, json r = Ok (PyDict d) /\
     match lookup "features" d with
     | None | Some PyNone | Some (PyBool _) | Some (PyInt _)
     | Some (PyFloat _) => True
     | Some _ => False
     end) ->
  fst (get_alerts upstream req w)
  = Ok (mkFlask (PyDict [("alerts", PyList []); ("source", PyStr "NWS")]) 200).
Proof.
  intros Hlat Hlat' Hlon Hlon' Hr H.
  rewrite (get_alerts_run upstream req w lat lon Hlat Hlat' Hlon Hlon').
  cbv zeta. rewrite Hr. cbn [fst]. unfold parse_alerts.
  cbn [resp_json bind Monad_result].
  destruct H as [[e ->]|[(o & -> & Ho)|(d & -> & Hd)]].
  - reflexivity.
  - destruct o; try reflexivity. now destruct (Ho d).
  - cbn [py_get]. unfold dict_get.
    destruct (lookup "features" d) as [[]|]; try contradiction; reflexivity.
Qed.

Lemma alerts_unusable_body_witness :
  fst (get_alerts (always 200 "{}" (Ok (PyDict [])))
         [("lat", "30.5"); ("lon", "-85.0")] empty_world)
  = Ok (mkFlask (PyDict [("alerts", PyList []); ("source", PyStr "NWS")]) 200).
Proof.
  apply (alerts_unusable_body _ [("lat", "30.5"); ("lon", "-85.0")] empty_world
           "30.5" "-85.0" (mkResponse 200 "{}" (Ok (PyDict []))));
    try reflexivity; try discriminate.
  right. right. exists []. split; [reflexivity|exact I].
Defined.

(** ** The search for a tag *)

(** X15: when a tag is found, the index returned is that of its first
    occurrence: the chunk is the text before, the tag and the text after,
    the index is the length of the text before, and the tag starts at no
    earlier position. *)
Theorem find_first_occurrence s sub i :
  find s sub = i -> i <> -1 ->
  exists pre post,
    s = pre ++ sub ++ post /\
    i = Z.of_nat (String.length pre) /\
    forall pre' post', s = pre' ++ sub ++ post' ->
                       (String.length pre <= String.length pre')%nat.
Proof.
  intros H Hi. destruct (find_from_lowest sub s 0 i H Hi)
    as (pre & post & Hs & Hidx & Hmin).
  exists pre, post. repeat split; [exact Hs|lia|exact Hmin].
Qed.

Lemma find_first_occurrence_witness :
  exists pre post,
    "a<link>b<link>c" = pre ++ "<link>" ++ post /\
    1 = Z.of_nat (String.length pre) /\
    forall pre' post', "a<link>b<link>c" = pre' ++ "<link>" ++ post' ->
                       (String.length pre <= String.length pre')%nat.
Proof.
  apply (find_first_occurrence "a<link>b<link>c" "<link>" 1).
  - reflexivity.
  - discriminate.
Defined.
